(** * HCT survival prediction service: a shallow embedding

    The development follows the layout of the repository:
    - [app/backend/main.py]: the request schema [PatientInput], the
      start-up hook [load_model], the explainability reader
      [get_feature_importance], the read-only endpoints and the
      [/predict] handler [predict_survival];
    - [scripts/export_model.py]: the synthetic data generator, the
      preprocessor factory and the exporter;
    - [app/frontend/streamlit_app.py]: the form's widgets, the body it
      posts and what it shows for a response;
    - [verify_setup.py]: the file, package and model checks and the exit
      status of [main].

    Python floats are IEEE-754 binary64 values and are represented by
    [spec_float]; Python integers are unbounded and are represented by
    [Z] (counters, which only grow from zero, by [nat]); Python
    dictionaries keep insertion order and are represented by association
    lists with unique keys. *)

From Stdlib Require Import ZArith List String Ascii Bool Lia.
From Stdlib Require Import Floats.SpecFloat.
From Stdlib Require Import Sorting.Sorted Sorting.Permutation.
From Stdlib Require Import QArith Qround.
Import ListNotations.

Local Close Scope Q_scope.
Local Open Scope string_scope.
Local Open Scope list_scope.

(** ** Python values shared by both programs *)

Module Py.

(** A raised exception: its class and the text [str(e)] yields. *)
Record Exception := mkExc { exc_class : string; exc_str : string }.

(** The outcome of evaluating a Python expression that may raise. *)
Inductive result (A : Type) : Type :=
| Ok (a : A)
| Raise (e : Exception).
Arguments Ok {A} a.
Arguments Raise {A} e.

Definition bind {A B : Type} (r : result A) (k : A -> result B) : result B :=
  match r with
  | Ok a => k a
  | Raise e => Raise e
  end.

(** [try: body except Exception as e: handler e] *)
Definition try_except {A : Type} (body : result A) (handler : Exception -> A) : A :=
  match body with
  | Ok a => a
  | Raise e => handler e
  end.

(** binary64 *)
Definition float : Type := spec_float.

(** The literal [0.5] and the literals [0.0] and [1.0], in canonical
    binary64 form (53-bit mantissa). *)
Definition half : float := S754_finite false 4503599627370496 (-53).
Definition one : float := S754_finite false 4503599627370496 (-52).
Definition zero : float := S754_zero false.

(** [x > y] and [x < y] on floats: false as soon as one side is NaN. *)
Definition gt (x y : float) : bool := SFltb y x.
Definition lt (x y : float) : bool := SFltb x y.
Definition le (x y : float) : bool := SFleb x y.

(** [math.isfinite] *)
Definition isfinite (x : float) : bool :=
  match x with
  | S754_zero _ | S754_finite _ _ _ => true
  | S754_infinity _ | S754_nan => false
  end.

(** [0 <= x <= 1] *)
Definition in_unit_interval (x : float) : bool := le zero x && le x one.

(** JSON-like values held by response dictionaries. *)
#[warnings="-register-all"]
Inductive value : Type :=
| VFloat (x : float)
| VStr (s : string)
| VDict (d : list (string * value)).

(** ** Dictionaries

    [dict_set d k v] is [d[k] = v]: an existing key keeps its position
    and takes the new value, a new key is appended. *)
Fixpoint dict_set {V : Type} (d : list (string * V)) (k : string) (v : V)
  : list (string * V) :=
  match d with
  | [] => [(k, v)]
  | (k', v') :: d' =>
      if String.eqb k' k then (k', v) :: d' else (k', v') :: dict_set d' k v
  end.

Fixpoint dict_get {V : Type} (d : list (string * V)) (k : string) : option V :=
  match d with
  | [] => None
  | (k', v') :: d' => if String.eqb k' k then Some v' else dict_get d' k
  end.

(** [dict(pairs)]: insert the pairs from left to right. *)
Definition dict_of_items {V : Type} (items : list (string * V)) : list (string * V) :=
  fold_left (fun d kv => dict_set d (fst kv) (snd kv)) items [].

Definition keys {V : Type} (d : list (string * V)) : list string := map fst d.

(** [sorted(items, key=lambda x: x[1], reverse=True)] for keys none of
    which is NaN.  Python's sort is stable and only ever asks [a < b] of
    two keys; with [reverse=True] equal keys keep their original relative
    order.  An item is therefore placed after every item whose key is
    strictly greater and before the first one that is not.  With a NaN
    among the keys [<] is no longer an order and the list Python returns
    depends on the run structure of its sort; this function does not
    describe it, and every statement below that speaks of the sorted
    list assumes finite scores. *)
Fixpoint insert_desc {K : Type} (x : K * float) (l : list (K * float))
  : list (K * float) :=
  match l with
  | [] => [x]
  | y :: l' => if lt (snd x) (snd y) then y :: insert_desc x l' else x :: l
  end.

Definition sorted_desc {K : Type} (items : list (K * float)) : list (K * float) :=
  fold_right insert_desc [] items.

(** [s.replace(old, new)] for a non-empty [old]: every non-overlapping
    occurrence, scanned from the left, is replaced.  [skip] counts the
    characters of an occurrence that were already consumed. *)
Fixpoint replace_from (old new s : string) (skip : nat) : string :=
  match s with
  | EmptyString => EmptyString
  | String c s' =>
      match skip with
      | S k => replace_from old new s' k
      | O =>
          if String.prefix old s
          then new ++ replace_from old new s' (String.length old - 1)
          else String c (replace_from old new s' 0)
      end
  end.

Definition replace (s old new : string) : string := replace_from old new s 0.

(** [old in s] *)
Fixpoint contains (old s : string) : bool :=
  String.prefix old s ||
  match s with
  | EmptyString => false
  | String _ s' => contains old s'
  end.

(** [s.startswith(prefix)] and [s.endswith(suffix)] *)
Definition startswith (s prefix : string) : bool := String.prefix prefix s.

Definition endswith (s suffix : string) : bool :=
  let n := String.length s in
  let m := String.length suffix in
  Nat.leb m n && String.eqb (String.substring (n - m) m s) suffix.

(** [p[:p.rfind('/') + 1]]: the part of [p] up to its last slash. *)
Fixpoint head_to_last_slash (p : string) : string :=
  match p with
  | EmptyString => EmptyString
  | String c p' => if contains "/" p then String c (head_to_last_slash p') else EmptyString
  end.

(** [s.rstrip('/')] *)
Fixpoint rstrip_slash (s : string) : string :=
  match s with
  | EmptyString => EmptyString
  | String c s' =>
      match rstrip_slash s' with
      | EmptyString => if Ascii.eqb c "/" then EmptyString else String c EmptyString
      | r => String c r
      end
  end.

(** [head == '/' * len(head)] *)
Fixpoint all_slashes (s : string) : bool :=
  match s with
  | EmptyString => true
  | String c s' => Ascii.eqb c "/" && all_slashes s'
  end.

(** [os.path.dirname(p)] on POSIX paths. *)
Definition dirname (p : string) : string :=
  let head := head_to_last_slash p in
  if negb (String.eqb head "") && negb (all_slashes head)
  then rstrip_slash head
  else head.

(** One step of [os.path.join(a, *p)] on POSIX paths: an absolute
    component restarts the path, otherwise a separator is added unless
    the path so far is empty or already ends with one. *)
Definition join_step (path b : string) : string :=
  if startswith b "/" then b
  else if String.eqb path "" || endswith path "/" then (path ++ b)%string
  else (path ++ "/" ++ b)%string.

Definition path_join (a : string) (p : list string) : string := fold_left join_step p a.

(** [len(set(l)) == len(l)] *)
Fixpoint all_distinct (l : list string) : bool :=
  match l with
  | [] => true
  | x :: l' => negb (existsb (String.eqb x) l') && all_distinct l'
  end.

End Py.

Notation "x <- e ;; k" := (Py.bind e (fun x => k))
  (at level 61, e at next level, right associativity).

(** ** The backend: [app/backend/main.py] *)

Module Backend.
Import Py.

(** *** Request schema *)

(** A validated request body, [PatientInput]. *)
Record PatientInput := mkPatient {
  age : Z;
  gender : string;
  donor_type : string;
  comorbidity_score : Z;
  disease_type : string;
  conditioning_intensity : string;
  prior_transplants : Z;
  time_from_diagnosis_days : Z;
  treatment_days : Z
}.

(** The request body as it arrives: a JSON object whose members have
    already been read at the declared field types; [None] is an absent
    member. *)
Record Payload := mkPayload {
  raw_age : option Z;
  raw_gender : option string;
  raw_donor_type : option string;
  raw_comorbidity_score : option Z;
  raw_disease_type : option string;
  raw_conditioning_intensity : option string;
  raw_prior_transplants : option Z;
  raw_time_from_diagnosis_days : option Z;
  raw_treatment_days : option Z
}.

(** One entry of the 422 detail: the field and what is wrong with it. *)
Inductive ErrorKind :=
| FieldRequired
| NotGe (bound : Z)
| NotLe (bound : Z)
| ValueError (msg : string).

Definition FieldError : Type := string * ErrorKind.

(** [v in l] on strings *)
Definition str_in (v : string) (l : list string) : bool := existsb (String.eqb v) l.

(** [Field(..., ge=lo, le=hi)] on an [int] field. *)
Definition int_field (name : string) (lo hi : Z) (v : option Z)
  : list FieldError + Z :=
  match v with
  | None => inl [(name, FieldRequired)]
  | Some z =>
      if (z <? lo)%Z then inl [(name, NotGe lo)]
      else if (hi <? z)%Z then inl [(name, NotLe hi)]
      else inr z
  end.

(** [Field(...)] on a [str] field followed by its [@validator]. *)
Definition str_field (name : string) (validator : string -> Py.result string)
  (v : option string) : list FieldError + string :=
  match v with
  | None => inl [(name, FieldRequired)]
  | Some s =>
      match validator s with
      | Ok s' => inr s'
      | Raise e => inl [(name, ValueError (exc_str e))]
      end
  end.

Definition value_error (msg : string) : Exception := mkExc "ValueError" msg.

Definition validate_gender (v : string) : Py.result string :=
  if negb (str_in v ["Male"; "Female"])
  then Raise (value_error "Gender must be Male or Female")
  else Ok v.

Definition validate_donor_type (v : string) : Py.result string :=
  let valid_types := ["Matched sibling"; "Matched unrelated"; "Haploidentical"; "Cord blood"] in
  if negb (str_in v valid_types)
  then Raise (value_error "Donor type must be one of: ['Matched sibling', 'Matched unrelated', 'Haploidentical', 'Cord blood']")
  else Ok v.

Definition validate_disease_type (v : string) : Py.result string :=
  let valid_types := ["AML"; "ALL"; "MDS"; "Lymphoma"; "Other"] in
  if negb (str_in v valid_types)
  then Raise (value_error "Disease type must be one of: ['AML', 'ALL', 'MDS', 'Lymphoma', 'Other']")
  else Ok v.

Definition validate_conditioning_intensity (v : string) : Py.result string :=
  let valid_types := ["Myeloablative"; "Reduced-intensity"] in
  if negb (str_in v valid_types)
  then Raise (value_error "Conditioning intensity must be one of: ['Myeloablative', 'Reduced-intensity']")
  else Ok v.

Definition errors_of {A : Type} (r : list FieldError + A) : list FieldError :=
  match r with
  | inl errs => errs
  | inr _ => []
  end.

(** Construction of a [PatientInput] from the body: every field is
    checked, in declaration order, and the errors of all fields are
    reported together. *)
Definition parse_patient (p : Payload) : list FieldError + PatientInput :=
  let f_age := int_field "age" 18 80 (raw_age p) in
  let f_gender := str_field "gender" validate_gender (raw_gender p) in
  let f_donor := str_field "donor_type" validate_donor_type (raw_donor_type p) in
  let f_comorb := int_field "comorbidity_score" 0 10 (raw_comorbidity_score p) in
  let f_disease := str_field "disease_type" validate_disease_type (raw_disease_type p) in
  let f_cond :=
    str_field "conditioning_intensity" validate_conditioning_intensity
      (raw_conditioning_intensity p) in
  let f_prior := int_field "prior_transplants" 0 1 (raw_prior_transplants p) in
  let f_time := int_field "time_from_diagnosis_days" 1 5000 (raw_time_from_diagnosis_days p) in
  let f_treat := int_field "treatment_days" 1 365 (raw_treatment_days p) in
  match f_age, f_gender, f_donor, f_comorb, f_disease, f_cond, f_prior, f_time, f_treat with
  | inr a, inr g, inr d, inr c, inr ds, inr ci, inr pt, inr t, inr tr =>
      inr (mkPatient a g d c ds ci pt t tr)
  | _, _, _, _, _, _, _, _, _ =>
      inl (errors_of f_age ++ errors_of f_gender ++ errors_of f_donor ++
           errors_of f_comorb ++ errors_of f_disease ++ errors_of f_cond ++
           errors_of f_prior ++ errors_of f_time ++ errors_of f_treat)
  end.

(** A field value of [patient.dict()]. *)
Inductive FieldValue :=
| IntValue (z : Z)
| StrValue (s : string).

(** [patient.dict()]: the fields in declaration order.  Its keys are the
    columns of the one-row frame [pd.DataFrame([patient.dict()])]. *)
Definition patient_dict (patient : PatientInput) : list (string * FieldValue) :=
  [("age", IntValue (age patient));
   ("gender", StrValue (gender patient));
   ("donor_type", StrValue (donor_type patient));
   ("comorbidity_score", IntValue (comorbidity_score patient));
   ("disease_type", StrValue (disease_type patient));
   ("conditioning_intensity", StrValue (conditioning_intensity patient));
   ("prior_transplants", IntValue (prior_transplants patient));
   ("time_from_diagnosis_days", IntValue (time_from_diagnosis_days patient));
   ("treatment_days", IntValue (treatment_days patient))].

(** *** The model artifact

    The serialized objects are scikit-learn estimators.  Only what the
    server reads from them is represented: the named steps, the fitted
    transformer list, the encoder categories, the importance scores, and
    the two opaque operations [predict_proba] and [transform]. *)

(** A step of a per-column transformer pipeline. *)
Inductive Step :=
| SimpleImputer (strategy : string)
| StandardScaler
| OneHotEncoder (handle_unknown : string) (sparse_output : bool)
    (categories_ : list (list string)).

(** [Pipeline(steps=[...])] applied to a group of columns. *)
Definition ColumnPipeline : Type := list (string * Step).

(** One entry [(name, transformer, features)] of [transformers_]. *)
Definition TransformerEntry : Type := string * ColumnPipeline * list string.

Record ColumnTransformer := mkColumnTransformer {
  transformers_ : list TransformerEntry;
  (** [transform(X)] on a one-row frame; its output is not read by the
      server, only whether it raises. *)
  transform : PatientInput -> Py.result unit
}.

Record XGBClassifier := mkXGB {
  feature_importances_ : Py.result (list float)
}.

Inductive Estimator :=
| Preprocessor (ct : ColumnTransformer)
| Classifier (clf : XGBClassifier).

(** The top-level [Pipeline]; [predict_proba] stands for
    [predict_proba(frame)[0, 1]] and is a black box. *)
Record Pipeline := mkPipeline {
  steps : list (string * Estimator);
  predict_proba : PatientInput -> Py.result float
}.

(** The metadata dictionary saved next to the pipeline. *)
Record FeatureInfo := mkFeatureInfo {
  categorical_features : list string;
  numeric_features : list string;
  feature_names : list string
}.

(** What [joblib.load] may return. *)
Inductive Pickle :=
| PickledPipeline (p : Pipeline)
| PickledInfo (fi : FeatureInfo).

Definition attribute_error (obj attr : string) : Exception :=
  mkExc "AttributeError"
    ("'" ++ obj ++ "' object has no attribute '" ++ attr ++ "'")%string.

Definition key_error (k : string) : Exception := mkExc "KeyError" ("'" ++ k ++ "'")%string.

(** [d[k]] *)
Definition getitem {V : Type} (d : list (string * V)) (k : string) : Py.result V :=
  match dict_get d k with
  | Some v => Ok v
  | None => Raise (key_error k)
  end.

(** [model.named_steps] on the global [model] *)
Definition named_steps (model : option Pickle) : Py.result (list (string * Estimator)) :=
  match model with
  | None => Raise (attribute_error "NoneType" "named_steps")
  | Some (PickledInfo _) => Raise (attribute_error "dict" "named_steps")
  | Some (PickledPipeline p) => Ok (steps p)
  end.

(** [model.predict_proba(patient_data)[0, 1]] on the global [model] *)
Definition model_predict_proba (model : option Pickle) (patient_data : PatientInput)
  : Py.result float :=
  match model with
  | None => Raise (attribute_error "NoneType" "predict_proba")
  | Some (PickledInfo _) => Raise (attribute_error "dict" "predict_proba")
  | Some (PickledPipeline p) => predict_proba p patient_data
  end.

Definition get_feature_importances_ (e : Estimator) : Py.result (list float) :=
  match e with
  | Classifier clf => feature_importances_ clf
  | Preprocessor _ => Raise (attribute_error "ColumnTransformer" "feature_importances_")
  end.

Definition as_preprocessor (e : Estimator) (attr : string) : Py.result ColumnTransformer :=
  match e with
  | Preprocessor ct => Ok ct
  | Classifier _ => Raise (attribute_error "XGBClassifier" attr)
  end.

(** [hasattr(step, 'get_feature_names_out')]: every estimator of a
    scikit-learn release that accepts [sparse_output] has the method. *)
Definition has_get_feature_names_out (s : Step) : bool := true.

(** The names one encoder gives to the columns of one feature:
    [feature + "_" + category] for each category. *)
Definition onehot_names (feature : string) (categories : list string) : list string :=
  map (fun c => (feature ++ "_" ++ c)%string) categories.

(** [step.get_feature_names_out(input_features)] *)
Definition get_feature_names_out (s : Step) (input_features : list string)
  : Py.result (list string) :=
  match s with
  | SimpleImputer _ | StandardScaler => Ok input_features
  | OneHotEncoder _ _ cats =>
      if Nat.eqb (List.length input_features) (List.length cats)
      then Ok (List.concat (map (fun fc => onehot_names (fst fc) (snd fc))
                           (combine input_features cats)))
      else Raise (value_error
             "input_features should have length equal to number of features")
  end.

(** The loop over [transformers_] that rebuilds the derived names. *)
Fixpoint collect_feature_names (ts : list TransformerEntry) (feature_names : list string)
  : Py.result (list string) :=
  match ts with
  | [] => Ok feature_names
  | (name, transformer, features) :: rest =>
      if String.eqb name "num" then
        collect_feature_names rest (feature_names ++ features)
      else if String.eqb name "cat" then
        onehot <- getitem transformer "onehot" ;;
        if has_get_feature_names_out onehot then
          cat_features <- get_feature_names_out onehot features ;;
          collect_feature_names rest (feature_names ++ cat_features)
        else collect_feature_names rest feature_names
      else collect_feature_names rest feature_names
  end.

(** The loop [for i, importance in enumerate(feature_importance)]. *)
Fixpoint fill_importance (feature_names : list string) (feature_importance : list float)
  (i : nat) (importance_dict : list (string * float)) : list (string * float) :=
  match feature_importance with
  | [] => importance_dict
  | importance :: rest =>
      fill_importance feature_names rest (S i)
        (if Nat.ltb i (List.length feature_names)
         then dict_set importance_dict (nth i feature_names "") importance
         else importance_dict)
  end.

(** The last two lines of the [try] block. *)
Definition top_five (importance_dict : list (string * float)) : list (string * float) :=
  let sorted_importance := sorted_desc importance_dict in
  dict_of_items (firstn 5 sorted_importance).

(** The [try] block of [get_feature_importance]. *)
Definition feature_importance_body (model : option Pickle) (patient_data : PatientInput)
  : Py.result (list (string * float)) :=
  named <- named_steps model ;;
  xgb_model <- getitem named "xgb" ;;
  feature_importance <- get_feature_importances_ xgb_model ;;
  preproc <- getitem named "preproc" ;;
  ct <- as_preprocessor preproc "transform" ;;
  _ <- transform ct patient_data ;;
  feature_names <- collect_feature_names (transformers_ ct) [] ;;
  let importance_dict := fill_importance feature_names feature_importance 0 [] in
  Ok (top_five importance_dict).

(** *** Process state *)

Inductive LogEntry :=
| LogInfo (msg : string)
| LogPrediction (timestamp : Z) (patient_data : PatientInput)
    (probability : float) (prediction : string)
| LogWarning (msg : string)
| LogError (msg : string).

(** Modelled from the spec: the rate limiter of the [/predict] route
    (the limiter library is not part of the repository sources).  The
    policy is at most 10 invocations per minute per client identity; a
    client's window opens with its first counted call and lasts 60
    seconds, every call that reaches the limiter is counted, and a call
    is admitted when the count of its window does not exceed 10. *)
Record Window := mkWindow { hits : nat; expires : Z }.

Definition LimiterStorage : Type := string -> option Window.

Definition limit_amount : nat := 10.
Definition limit_period : Z := 60.

Definition live_window (storage : LimiterStorage) (key : string) (now : Z)
  : option Window :=
  match storage key with
  | Some w => if (expires w <=? now)%Z then None else Some w
  | None => None
  end.

Definition limiter_hit (storage : LimiterStorage) (key : string) (now : Z)
  : LimiterStorage * bool :=
  let w' :=
    match live_window storage key now with
    | Some w => mkWindow (S (hits w)) (expires w)
    | None => mkWindow 1 (now + limit_period)
    end in
  (fun k => if String.eqb k key then Some w' else storage k,
   Nat.leb (hits w') limit_amount).

(** The module-level globals, the log stream and the limiter storage. *)
Record ServerState := mkState {
  model : option Pickle;
  feature_info : option Pickle;
  prediction_count : nat;
  error_count : nat;
  log : list LogEntry;
  limiter : LimiterStorage
}.

Definition emit (st : ServerState) (entry : LogEntry) : ServerState :=
  mkState (model st) (feature_info st) (prediction_count st) (error_count st)
          (log st ++ [entry]) (limiter st).

Definition incr_prediction_count (st : ServerState) : ServerState :=
  mkState (model st) (feature_info st) (S (prediction_count st)) (error_count st)
          (log st) (limiter st).

Definition incr_error_count (st : ServerState) : ServerState :=
  mkState (model st) (feature_info st) (prediction_count st) (S (error_count st))
          (log st) (limiter st).

Definition set_limiter (st : ServerState) (storage : LimiterStorage) : ServerState :=
  mkState (model st) (feature_info st) (prediction_count st) (error_count st)
          (log st) storage.

(** *** Start-up: [load_model] *)

(** The files [joblib.load] can see. *)
Definition FileSystem : Type := string -> option Pickle.

Definition joblib_load (fs : FileSystem) (path : string) : Py.result Pickle :=
  match fs path with
  | Some obj => Ok obj
  | None =>
      Raise (mkExc "FileNotFoundError"
               ("[Errno 2] No such file or directory: '" ++ path ++ "'")%string)
  end.

(** [os.path.join(base_dir, 'model', 'model.pkl')] *)
Definition default_model_path (base_dir : string) : string :=
  path_join base_dir ["model"; "model.pkl"].

(** [os.getenv('MODEL_PATH', default)] *)
Definition model_path_of (env_MODEL_PATH : option string) (base_dir : string) : string :=
  match env_MODEL_PATH with
  | Some p => p
  | None => default_model_path base_dir
  end.

(** [info_path = model_path.replace('.pkl', '_info.pkl')] *)
Definition info_path_of (model_path : string) : string :=
  Py.replace model_path ".pkl" "_info.pkl".

Definition set_model (st : ServerState) (m : option Pickle) : ServerState :=
  mkState m (feature_info st) (prediction_count st) (error_count st) (log st) (limiter st).

Definition set_feature_info (st : ServerState) (fi : option Pickle) : ServerState :=
  mkState (model st) fi (prediction_count st) (error_count st) (log st) (limiter st).

(** [load_model]: both globals are assigned in turn; a failure is
    logged and raised again. *)
Definition load_model (fs : FileSystem) (env_MODEL_PATH : option string)
  (base_dir : string) (st : ServerState) : ServerState * Py.result unit :=
  let model_path := model_path_of env_MODEL_PATH base_dir in
  let info_path := info_path_of model_path in
  match joblib_load fs model_path with
  | Raise e =>
      (emit st (LogError ("Failed to load model: " ++ exc_str e)%string), Raise e)
  | Ok m =>
      let st1 := set_model st (Some m) in
      match joblib_load fs info_path with
      | Raise e =>
          (emit st1 (LogError ("Failed to load model: " ++ exc_str e)%string), Raise e)
      | Ok fi =>
          (emit (set_feature_info st1 (Some fi)) (LogInfo "Model loaded successfully"),
           Ok tt)
      end
  end.

(** *** Explainability: [get_feature_importance] *)

Definition fallback_importance : list (string * value) :=
  [("note", VStr "Feature importance unavailable")].

(** A [Dict[str, float]] seen as a response dictionary. *)
Definition float_dict (d : list (string * float)) : list (string * value) :=
  map (fun kv => (fst kv, VFloat (snd kv))) d.

(** The whole function: the [try] block, and the handler that logs a
    warning and returns the fallback.  The result type leaves room for a
    raised exception, so that callers bind it like any other call. *)
Definition get_feature_importance (st : ServerState) (patient_data : PatientInput)
  : Py.result (ServerState * list (string * value)) :=
  Ok (try_except
        (d <- feature_importance_body (model st) patient_data ;;
         Ok (st, float_dict d))
        (fun e =>
           (emit st (LogWarning ("Could not compute feature importance: " ++ exc_str e)%string),
            fallback_importance))).

(** *** Endpoints *)

Definition disclaimer_text : string :=
  "⚠️ FOR RESEARCH/DEMO USE ONLY. NOT FOR CLINICAL DECISION-MAKING.".

Record PredictionResponse := mkResponse {
  probability : float;
  prediction : string;
  explainability : list (string * value);
  disclaimer : string
}.

Record HealthResponse := mkHealth {
  status : string;
  model_loaded : bool;
  health_timestamp : Z
}.

Record MetricsResponse := mkMetrics {
  metrics_prediction_count : nat;
  metrics_error_count : nat;
  metrics_timestamp : Z
}.

Inductive HttpResponse :=
| Http200 (body : PredictionResponse)
| Http422 (detail : list FieldError)
| Http429
| Http500 (detail : string).

Definition status_code (r : HttpResponse) : Z :=
  match r with
  | Http200 _ => 200
  | Http422 _ => 422
  | Http429 => 429
  | Http500 _ => 500
  end.

(** [GET /health] *)
Definition health_check (st : ServerState) (now : Z) : HealthResponse :=
  mkHealth "healthy" (match model st with Some _ => true | None => false end) now.

(** [GET /metrics] *)
Definition get_metrics (st : ServerState) (now : Z) : MetricsResponse :=
  mkMetrics (prediction_count st) (error_count st) now.

(** The [try] block of [predict_survival]. *)
Definition predict_body (st : ServerState) (now : Z) (patient : PatientInput)
  : Py.result (ServerState * PredictionResponse) :=
  let patient_data := patient in
  probability <- model_predict_proba (model st) patient_data ;;
  let prediction_class :=
    if gt probability half then "Likely to survive" else "At risk" in
  r <- get_feature_importance st patient_data ;;
  let st1 := fst r in
  let feature_importance := snd r in
  let st2 := emit st1 (LogPrediction now patient probability prediction_class) in
  let st3 := incr_prediction_count st2 in
  Ok (st3,
      mkResponse probability prediction_class
        [("feature_importance", VDict feature_importance);
         ("notes", VStr "Higher scores indicate greater influence on survival prediction")]
        disclaimer_text).

(** The handler body of [POST /predict], once the body is validated and
    the limiter has admitted the call. *)
Definition predict_survival (st : ServerState) (now : Z) (patient : PatientInput)
  : ServerState * HttpResponse :=
  match predict_body st now patient with
  | Ok (st', response) => (st', Http200 response)
  | Raise e =>
      (emit (incr_error_count st) (LogError ("Prediction error: " ++ exc_str e)%string),
       Http500 (exc_str e))
  end.

(** [get_remote_address(request)], the clock, and the JSON body. *)
Record Request := mkRequest {
  remote_address : string;
  arrival : Z;
  body_json : Payload
}.

(** [POST /predict] as routed: the framework builds the [PatientInput]
    argument first and answers 422 itself when that fails; only then is
    the decorated function called, whose limiter wrapper answers 429 or
    runs the handler body. *)
Definition post_predict (st : ServerState) (req : Request) : ServerState * HttpResponse :=
  match parse_patient (body_json req) with
  | inl errs => (st, Http422 errs)
  | inr patient =>
      let (storage, admitted) :=
        limiter_hit (limiter st) (remote_address req) (arrival req) in
      let st1 := set_limiter st storage in
      if admitted then predict_survival st1 (arrival req) patient
      else (st1, Http429)
  end.

(** A run of [POST /predict] calls: the final state and the responses in
    order. *)
Fixpoint serve (st : ServerState) (reqs : list Request) : ServerState * list HttpResponse :=
  match reqs with
  | [] => (st, [])
  | req :: rest =>
      let (st1, r) := post_predict st req in
      let (st2, rs) := serve st1 rest in
      (st2, r :: rs)
  end.

End Backend.

(** ** The offline trainer: [scripts/export_model.py] *)

Module Trainer.
Import Py.

(** *** Synthetic data *)

(** A cell of a data frame; [NaN] is a missing value. *)
Inductive Cell :=
| Num (z : Z)
| Str (s : string)
| NaN.

(** A data frame: its columns, in order, each with its cells. *)
Definition DataFrame : Type := list (string * list Cell).

(** The draws of [np.random.RandomState(random_state)], one family per
    call of the generator and indexed by row.  Real-valued draws are
    rationals (every finite binary64 value is one); [choice] draws are
    positions in the list of options; a Poisson draw is a natural number;
    a [binomial(1, p)] draw is the outcome of one trial. *)
Record RandomState := mkRandomState {
  normal_age : nat -> Q;
  choice_gender : nat -> nat;
  choice_donor_type : nat -> nat;
  poisson_comorbidity : nat -> nat;
  choice_disease_type : nat -> nat;
  choice_conditioning : nat -> nat;
  binomial_prior : nat -> bool;
  exponential_time : nat -> Q;
  normal_treatment : nat -> Q;
  normal_risk : nat -> Q;
  rand_survival : nat -> Q;
  rand_missing : string -> nat -> Q
}.

(** An array of [size=n] draws. *)
Definition draws {A : Type} (f : nat -> A) (n : nat) : list A := map f (seq 0 n).

(** One element of [rng.choice(options, size=n)]: one of the options. *)
Definition choice (options : list string) (pick : nat) : string :=
  nth (pick mod List.length options) options "".

(** [x.clip(lo, hi)] on reals and on integers. *)
Definition clipQ (lo hi x : Q) : Q :=
  if Qle_bool x lo then lo else if Qle_bool hi x then hi else x.

Definition clipZ (lo hi x : Z) : Z := Z.min (Z.max x lo) hi.

(** [x.astype(int)] on a real: truncation towards zero. *)
Definition astype_int (x : Q) : Z :=
  if Qle_bool 0 x then Qfloor x else Qceiling x.

(** [(a == s) * w] *)
Definition indicator (a s : string) (w : Q) : Q := if String.eqb a s then w else 0%Q.

Definition bool_to_Z (b : bool) : Z := if b then 1%Z else 0%Z.

(** One row of the intermediate arrays. *)
Record Row := mkRow {
  age : Z;
  gender : string;
  donor_type : string;
  comorbidity_score : Z;
  disease_type : string;
  conditioning_intensity : string;
  prior_transplants : Z;
  time_from_diagnosis_days : Z;
  treatment_days : Z;
  survival : Z
}.

Section Generator.

(** [np.exp] on the reals used by the generator. *)
Variable exp : Q -> Q.

(** Row [i] of the arrays computed before the frame is built.  The
    arithmetic is exact (rationals and unbounded integers) where the
    arrays are binary64 and int64: a sum may round differently before it
    is truncated, so a cell can differ by one from the array's; the
    clipping, and with it every range below, is the same. *)
Definition row (rng : RandomState) (i : nat) : Row :=
  let age := astype_int (clipQ 18 80 (normal_age rng i)) in
  let gender := choice ["Male"; "Female"] (choice_gender rng i) in
  let donor_type :=
    choice ["Matched sibling"; "Matched unrelated"; "Haploidentical"; "Cord blood"]
           (choice_donor_type rng i) in
  let comorbidity_score := Z.of_nat (poisson_comorbidity rng i) in
  let disease_type :=
    choice ["AML"; "ALL"; "MDS"; "Lymphoma"; "Other"] (choice_disease_type rng i) in
  let conditioning_intensity :=
    choice ["Myeloablative"; "Reduced-intensity"] (choice_conditioning rng i) in
  let prior_transplants := bool_to_Z (binomial_prior rng i) in
  let time_from_diagnosis_days := clipZ 10 5000 (astype_int (exponential_time rng i)) in
  let treatment_days :=
    clipZ 7 365
      (astype_int (inject_Z 30 + inject_Z (comorbidity_score * 5) + normal_treatment rng i)%Q) in
  let risk :=
    ((3 # 100) * inject_Z (age - 40) +
     (4 # 10) * inject_Z comorbidity_score +
     (6 # 10) * inject_Z prior_transplants +
     indicator donor_type "Matched sibling" (- (6 # 10)) +
     indicator donor_type "Haploidentical" (4 # 10) +
     indicator conditioning_intensity "Myeloablative" (3 # 10) +
     normal_risk rng i)%Q in
  let prob_survival := (1 / (1 + exp risk))%Q in
  let survival :=
    bool_to_Z (negb (Qle_bool prob_survival (rand_survival rng i))) in
  mkRow age gender donor_type comorbidity_score disease_type conditioning_intensity
        prior_transplants time_from_diagnosis_days treatment_days survival.

(** [df.loc[mask, col] = np.nan] *)
Fixpoint mask_cells (mask : list bool) (cells : list Cell) : list Cell :=
  match mask, cells with
  | m :: mask', c :: cells' => (if m then NaN else c) :: mask_cells mask' cells'
  | _, _ => cells
  end.

Definition set_missing (df : DataFrame) (col : string) (mask : list bool) : DataFrame :=
  map (fun column =>
         if String.eqb (fst column) col
         then (fst column, mask_cells mask (snd column))
         else column) df.

(** The loop that injects missing values, one fresh mask per column. *)
Fixpoint add_missing (rng : RandomState) (n : nat) (cols : list string) (df : DataFrame)
  : DataFrame :=
  match cols with
  | [] => df
  | col :: rest =>
      let mask := draws (fun i => negb (Qle_bool (3 # 100) (rand_missing rng col i))) n in
      add_missing rng n rest (set_missing df col mask)
  end.

Definition missing_columns : list string :=
  ["donor_type"; "comorbidity_score"; "conditioning_intensity"].

(** [generate_synthetic_hct_data(n, random_state)], with the generator
    state seeded by [random_state] given as its draws. *)
Definition generate_synthetic_hct_data (n : nat) (rng : RandomState) : DataFrame :=
  let rows := draws (row rng) n in
  let df :=
    [("age", map (fun r => Num (age r)) rows);
     ("gender", map (fun r => Str (gender r)) rows);
     ("donor_type", map (fun r => Str (donor_type r)) rows);
     ("comorbidity_score", map (fun r => Num (comorbidity_score r)) rows);
     ("disease_type", map (fun r => Str (disease_type r)) rows);
     ("conditioning_intensity", map (fun r => Str (conditioning_intensity r)) rows);
     ("prior_transplants", map (fun r => Num (prior_transplants r)) rows);
     ("time_from_diagnosis_days", map (fun r => Num (time_from_diagnosis_days r)) rows);
     ("treatment_days", map (fun r => Num (treatment_days r)) rows);
     ("survival", map (fun r => Num (survival r)) rows)] in
  add_missing rng n missing_columns df.

End Generator.

(** [df[col]] *)
Definition column (df : DataFrame) (col : string) : option (list Cell) := dict_get df col.

(** [list(df.columns)] *)
Definition columns (df : DataFrame) : list string := map fst df.

(** *** Preprocessor and export *)

(** [make_preprocessor]: the unfitted column transformer, as its list of
    [(name, transformer, columns)] entries.  The encoder has no
    categories before it is fitted. *)
Definition make_preprocessor (categorical_features numeric_features : list string)
  : list Backend.TransformerEntry :=
  let numeric_transformer :=
    [("imputer", Backend.SimpleImputer "median");
     ("scaler", Backend.StandardScaler)] in
  let categorical_transformer :=
    [("imputer", Backend.SimpleImputer "most_frequent");
     ("onehot", Backend.OneHotEncoder "ignore" false [])] in
  [("num", numeric_transformer, numeric_features);
   ("cat", categorical_transformer, categorical_features)].

(** What [pipeline.fit(X_train, y_train)] learns from the data: the
    categories seen in each categorical column, the importance scores of
    the trees, and the two fitted black boxes. *)
Record Learned := mkLearned {
  learned_categories : string -> list string;
  learned_importances : Py.result (list float);
  learned_transform : Backend.PatientInput -> Py.result unit;
  learned_predict_proba : Backend.PatientInput -> Py.result float
}.

(** Fitting keeps every step and every entry in place; an encoder
    receives the categories of the columns it is applied to. *)
Definition fit_step (l : Learned) (features : list string) (s : Backend.Step)
  : Backend.Step :=
  match s with
  | Backend.OneHotEncoder h sp _ =>
      Backend.OneHotEncoder h sp (map (learned_categories l) features)
  | _ => s
  end.

Definition fit_entry (l : Learned) (t : Backend.TransformerEntry)
  : Backend.TransformerEntry :=
  let '(name, transformer, features) := t in
  (name, map (fun ns => (fst ns, fit_step l features (snd ns))) transformer, features).

(** [Pipeline(steps=[('preproc', preprocessor), ('xgb', xgb_clf)]).fit(...)] *)
Definition fit_pipeline (preprocessor : list Backend.TransformerEntry) (l : Learned)
  : Backend.Pipeline :=
  Backend.mkPipeline
    [("preproc",
      Backend.Preprocessor
        (Backend.mkColumnTransformer (map (fit_entry l) preprocessor)
           (learned_transform l)));
     ("xgb", Backend.Classifier (Backend.mkXGB (learned_importances l)))]
    (learned_predict_proba l).

(** What the calls that leave the program do in one run of the
    exporter: the split and fit of the pipeline on the generated frame,
    [os.makedirs(name, exist_ok=True)] on a non-empty name, the [k]-th
    [joblib.dump] on a path that may name a file, which paths name the
    same file, and the test prediction made before returning.  These
    are facts of the machine the exporter runs on: where a directory is
    missing, the outcome of a dump into it is the [FileNotFoundError]. *)
Record Outcomes := mkOutcomes {
  fit_outcome : DataFrame -> Py.result Learned;
  makedirs_outcome : string -> Py.result unit;
  dump_outcome : nat -> string -> Py.result unit;
  same_file : string -> string -> bool;
  test_prediction : Py.result float
}.

(** [os.makedirs(name, exist_ok=True)]: the empty name is always
    refused. *)
Definition makedirs (o : Outcomes) (name : string) : Py.result unit :=
  if String.eqb name ""
  then Raise (mkExc "FileNotFoundError" "[Errno 2] No such file or directory: ''")
  else makedirs_outcome o name.

(** The [k]-th [joblib.dump(obj, path)]: the file is opened for writing
    and the object written.  A path that ends with a slash cannot be
    opened as a file (the exception is the one raised when its directory
    exists, as it does after [makedirs]); a dump that raises leaves the
    files as they were; one that returns is read back from every path
    that names the same file. *)
Definition joblib_dump (o : Outcomes) (k : nat) (fs : Backend.FileSystem)
  (obj : Backend.Pickle) (path : string) : Backend.FileSystem * Py.result unit :=
  if endswith path "/"
  then (fs, Raise (mkExc "IsADirectoryError"
                     ("[Errno 21] Is a directory: '" ++ path ++ "'")%string))
  else
    match dump_outcome o k path with
    | Raise e => (fs, Raise e)
    | Ok _ =>
        (fun p => if String.eqb p path || same_file o p path then Some obj else fs p,
         Ok tt)
    end.

(** [info_path = output_path.replace('.pkl', '_info.pkl')] *)
Definition info_path_of (output_path : string) : string :=
  Py.replace output_path ".pkl" "_info.pkl".

Definition target : string := "survival".

Definition categorical_features : list string :=
  ["gender"; "donor_type"; "disease_type"; "conditioning_intensity"].

(** [[c for c in X.columns if c not in categorical_features]] *)
Definition numeric_features_of (X_columns : list string) : list string :=
  filter (fun c => negb (Backend.str_in c categorical_features)) X_columns.

(** [train_and_export_model(output_path, random_state)]: the data are
    generated, the pipeline is fitted, the output directory is made, both
    artifacts are written and a test prediction is made.  The result is
    the files afterwards, and the returned pair or the exception that
    ended the run. *)
Definition train_and_export_model (exp : Q -> Q) (o : Outcomes) (fs : Backend.FileSystem)
  (output_path : string) (rng : RandomState)
  : Backend.FileSystem * Py.result (Backend.Pipeline * Backend.FeatureInfo) :=
  let df := generate_synthetic_hct_data exp 3000 rng in
  let X_columns := filter (fun c => negb (String.eqb c target)) (columns df) in
  let numeric_features := numeric_features_of X_columns in
  let preprocessor := make_preprocessor categorical_features numeric_features in
  match fit_outcome o df with
  | Raise e => (fs, Raise e)
  | Ok l =>
      let pipeline := fit_pipeline preprocessor l in
      match makedirs o (dirname output_path) with
      | Raise e => (fs, Raise e)
      | Ok _ =>
          let (fs1, dumped) :=
            joblib_dump o 0 fs (Backend.PickledPipeline pipeline) output_path in
          match dumped with
          | Raise e => (fs1, Raise e)
          | Ok _ =>
              let feature_info :=
                Backend.mkFeatureInfo categorical_features numeric_features X_columns in
              let info_path := info_path_of output_path in
              let (fs2, dumped_info) :=
                joblib_dump o 1 fs1 (Backend.PickledInfo feature_info) info_path in
              match dumped_info with
              | Raise e => (fs2, Raise e)
              | Ok _ =>
                  match test_prediction o with
                  | Raise e => (fs2, Raise e)
                  | Ok _ => (fs2, Ok (pipeline, feature_info))
                  end
              end
          end
      end
  end.

End Trainer.

(** ** The form client: [app/frontend/streamlit_app.py] *)

Module Frontend.
Import Py Backend.

(** [st.number_input(label, min_value=.., max_value=.., value=..)] *)
Record NumberInput := mkNumberInput {
  label : string;
  min_value : Z;
  max_value : Z;
  value : Z
}.

Definition age_input : NumberInput := mkNumberInput "Age" 18 80 45.
Definition comorbidity_score_input : NumberInput :=
  mkNumberInput "Comorbidity Score" 0 10 2.
Definition time_from_diagnosis_days_input : NumberInput :=
  mkNumberInput "Days from Diagnosis" 1 5000 180.
Definition treatment_days_input : NumberInput := mkNumberInput "Treatment Days" 1 365 30.

(** The option lists of the [st.selectbox] widgets. *)
Definition gender_options : list string := ["Male"; "Female"].
Definition donor_type_options : list string :=
  ["Matched sibling"; "Matched unrelated"; "Haploidentical"; "Cord blood"].
Definition disease_type_options : list string := ["AML"; "ALL"; "MDS"; "Lymphoma"; "Other"].
Definition conditioning_intensity_options : list string :=
  ["Myeloablative"; "Reduced-intensity"].
Definition prior_transplants_options : list Z := [0%Z; 1%Z].

(** The values the nine widgets return in one run of the script. *)
Record Form := mkForm {
  age : Z;
  gender : string;
  donor_type : string;
  comorbidity_score : Z;
  disease_type : string;
  conditioning_intensity : string;
  prior_transplants : Z;
  time_from_diagnosis_days : Z;
  treatment_days : Z
}.

(** A number input returns a value between its bounds, a select box one
    of its options. *)
Definition returns (w : NumberInput) (v : Z) : bool :=
  (min_value w <=? v)%Z && (v <=? max_value w)%Z.

Definition offers (options : list string) (v : string) : bool := str_in v options.

Definition offers_int (options : list Z) (v : Z) : bool := existsb (Z.eqb v) options.

Definition widgets_return (f : Form) : bool :=
  returns age_input (age f) &&
  offers gender_options (gender f) &&
  offers donor_type_options (donor_type f) &&
  returns comorbidity_score_input (comorbidity_score f) &&
  offers disease_type_options (disease_type f) &&
  offers conditioning_intensity_options (conditioning_intensity f) &&
  offers_int prior_transplants_options (prior_transplants f) &&
  returns time_from_diagnosis_days_input (time_from_diagnosis_days f) &&
  returns treatment_days_input (treatment_days f).

(** The form as first rendered: every number input at its [value], every
    select box at its first option. *)
Definition initial_form : Form :=
  mkForm (value age_input) "Male" "Matched sibling" (value comorbidity_score_input)
         "AML" "Myeloablative" 0 (value time_from_diagnosis_days_input)
         (value treatment_days_input).

(** The [patient_data] dictionary, sent as the JSON body of
    [POST /predict]. *)
Definition patient_data (f : Form) : Payload :=
  mkPayload (Some (age f)) (Some (gender f)) (Some (donor_type f))
            (Some (comorbidity_score f)) (Some (disease_type f))
            (Some (conditioning_intensity f)) (Some (prior_transplants f))
            (Some (time_from_diagnosis_days f)) (Some (treatment_days f)).

(** What the right-hand column shows for the explainability part of a
    result. *)
Inductive ImportanceView :=
| BarChart (rows : list (string * Py.value))
| InfoNotAvailable
| NoView.

Definition importance_view (explainability : list (string * Py.value)) : ImportanceView :=
  match dict_get explainability "feature_importance" with
  | Some importance_data =>
      match importance_data with
      | VDict d => if Nat.ltb 0 (List.length d) then BarChart d else InfoNotAvailable
      | _ => InfoNotAvailable
      end
  | None => NoView
  end.

(** The three branches on [response.status_code]. *)
Inductive Shown :=
| PredictionResults (prediction : string) (view : ImportanceView)
| InvalidInput (detail : list FieldError)
| PredictionFailed (code : Z).

Definition show_response (response : HttpResponse) : Shown :=
  match response with
  | Http200 result =>
      PredictionResults (Backend.prediction result)
        (importance_view (explainability result))
  | Http422 detail => InvalidInput detail
  | Http429 | Http500 _ => PredictionFailed (status_code response)
  end.

End Frontend.

(** ** The set-up check: [verify_setup.py] *)

Module Setup.
Import Py.

(** What the script observes of the machine it runs on: the paths that
    exist, the packages that can be found, and what [joblib.load]
    does. *)
Record Environment := mkEnvironment {
  path_exists : string -> bool;
  find_spec : string -> bool;
  joblib_load : string -> Py.result unit
}.

(** One [print] call is one element of the output. *)
Definition Output : Type := list string.

Definition newline : string := String (ascii_of_nat 10) EmptyString.

Definition check_file_exists (env : Environment) (filepath description : string)
  : Output * bool :=
  if path_exists env filepath
  then (["✅ " ++ description ++ ": " ++ filepath]%string, true)
  else (["❌ " ++ description ++ ": " ++ filepath ++ " (MISSING)"]%string, false).

Definition check_python_package (env : Environment) (package_name : string)
  : Output * bool :=
  if find_spec env package_name
  then (["✅ Python package: " ++ package_name]%string, true)
  else (["❌ Python package: " ++ package_name ++ " (NOT INSTALLED)"]%string, false).

Definition critical_files : list (string * string) :=
  [("requirements.txt", "Requirements file");
   ("scripts/export_model.py", "Model export script");
   ("app/backend/main.py", "Backend API");
   ("app/frontend/streamlit_app.py", "Frontend app");
   ("Dockerfile", "Docker configuration");
   ("docker-compose.yml", "Docker Compose configuration");
   ("tests/test_api.py", "API tests");
   ("README.md", "Documentation")].

Definition required_packages : list string :=
  ["fastapi"; "uvicorn"; "pydantic"; "streamlit";
   "pandas"; "numpy"; "sklearn"; "xgboost";
   "joblib"; "matplotlib"; "pytest"].

Definition model_files : list (string * string) :=
  [("model/model.pkl", "Trained model");
   ("model/model_info.pkl", "Model metadata")].

(** [for x in items: if not check(x): flag = False]: every item is
    checked, whatever the earlier checks gave. *)
Fixpoint check_each {A : Type} (check : A -> Output * bool) (items : list A) (flag : bool)
  : Output * bool :=
  match items with
  | [] => ([], flag)
  | x :: rest =>
      let (out, ok) := check x in
      let (out', flag') := check_each check rest (if ok then flag else false) in
      (out ++ out', flag')
  end.

(** The [try] block that loads both artifacts; [import joblib] fails
    when the package cannot be found. *)
Definition load_test (env : Environment) : Py.result unit :=
  _ <- (if find_spec env "joblib" then Ok tt
        else Raise (mkExc "ModuleNotFoundError" "No module named 'joblib'")) ;;
  _ <- joblib_load env "model/model.pkl" ;;
  _ <- joblib_load env "model/model_info.pkl" ;;
  Ok tt.

Definition rule : string :=
  "==================================================".

(** [main()]: what is printed, and the exit status. *)
Definition main (env : Environment) : Output * Z :=
  let out0 := ["🔍 HCT Prediction App Setup Verification"; rule] in
  let all_good := true in
  let out1 := [(newline ++ "📁 File Structure Check:")%string] in
  let (out2, all_good) :=
    check_each (fun fd => check_file_exists env (fst fd) (snd fd)) critical_files all_good in
  let out3 := [(newline ++ "📦 Python Dependencies Check:")%string] in
  let (out4, all_good) := check_each (check_python_package env) required_packages all_good in
  let out5 := [(newline ++ "🤖 Model Files Check:")%string] in
  let (out6, model_exists) :=
    check_each (fun fd => check_file_exists env (fst fd) (snd fd)) model_files true in
  let (out7, all_good) :=
    if negb model_exists
    then ([(newline ++ "⚠️  Model files not found. Run: python scripts/export_model.py")%string],
          false)
    else ([], all_good) in
  let (out8, all_good) :=
    if model_exists then
      match load_test env with
      | Ok _ => (["✅ Model loading test: SUCCESS"], all_good)
      | Raise e => (["❌ Model loading test: FAILED (" ++ exc_str e ++ ")"]%string, false)
      end
    else ([], all_good) in
  let out9 := [(newline ++ rule)%string] in
  let out10 :=
    if all_good then
      ["🎉 Setup verification PASSED!";
       (newline ++ "Next steps:")%string;
       "1. Run: python scripts/export_model.py (if model files missing)";
       "2. Run: docker-compose up --build";
       "3. Access: http://localhost:8501 (frontend)";
       "4. Access: http://localhost:8000/docs (API docs)"]
    else
      ["❌ Setup verification FAILED!";
       (newline ++ "Please fix the issues above and run this script again.")%string;
       "Refer to README.md and CHECKLIST.md for detailed instructions."] in
  (out0 ++ out1 ++ out2 ++ out3 ++ out4 ++ out5 ++ out6 ++ out7 ++ out8 ++ out9 ++ out10,
   if all_good then 0%Z else 1%Z).

End Setup.

(** ** The specification's wording

    Definitions written from the specification, to be compared with the
    code above. *)

Module Spec.
Import Py Backend.

(** A field holding an integer of the range [lo..hi]. *)
Definition in_range (lo hi : Z) (v : option Z) : bool :=
  match v with
  | Some z => (lo <=? z)%Z && (z <=? hi)%Z
  | None => false
  end.

(** A field holding one of the listed strings. *)
Definition in_enum (allowed : list string) (v : option string) : bool :=
  match v with
  | Some s => str_in s allowed
  | None => false
  end.

(** The PatientRecord rules: all nine fields present, each integer in
    its range, each string in its enumeration. *)
Definition well_formed (p : Payload) : bool :=
  in_range 18 80 (raw_age p) &&
  in_enum ["Male"; "Female"] (raw_gender p) &&
  in_enum ["Matched sibling"; "Matched unrelated"; "Haploidentical"; "Cord blood"]
          (raw_donor_type p) &&
  in_range 0 10 (raw_comorbidity_score p) &&
  in_enum ["AML"; "ALL"; "MDS"; "Lymphoma"; "Other"] (raw_disease_type p) &&
  in_enum ["Myeloablative"; "Reduced-intensity"] (raw_conditioning_intensity p) &&
  in_range 0 1 (raw_prior_transplants p) &&
  in_range 1 5000 (raw_time_from_diagnosis_days p) &&
  in_range 1 365 (raw_treatment_days p).

(** The nine fields of a PatientRecord, in declaration order. *)
Definition field_names : list string :=
  ["age"; "gender"; "donor_type"; "comorbidity_score"; "disease_type";
   "conditioning_intensity"; "prior_transplants"; "time_from_diagnosis_days";
   "treatment_days"].

(** Whether the named field of a payload is present and obeys its rule. *)
Definition field_valid (p : Payload) (name : string) : bool :=
  if String.eqb name "age" then in_range 18 80 (raw_age p)
  else if String.eqb name "gender" then in_enum ["Male"; "Female"] (raw_gender p)
  else if String.eqb name "donor_type" then
    in_enum ["Matched sibling"; "Matched unrelated"; "Haploidentical"; "Cord blood"]
            (raw_donor_type p)
  else if String.eqb name "comorbidity_score" then in_range 0 10 (raw_comorbidity_score p)
  else if String.eqb name "disease_type" then
    in_enum ["AML"; "ALL"; "MDS"; "Lymphoma"; "Other"] (raw_disease_type p)
  else if String.eqb name "conditioning_intensity" then
    in_enum ["Myeloablative"; "Reduced-intensity"] (raw_conditioning_intensity p)
  else if String.eqb name "prior_transplants" then in_range 0 1 (raw_prior_transplants p)
  else if String.eqb name "time_from_diagnosis_days" then
    in_range 1 5000 (raw_time_from_diagnosis_days p)
  else if String.eqb name "treatment_days" then in_range 1 365 (raw_treatment_days p)
  else true.

(** The derived feature names: the numeric feature names unchanged, then
    the category-level names of each categorical feature in turn. *)
Definition derived_feature_names (numeric_features categorical_features : list string)
  (categories : string -> list string) : list string :=
  numeric_features ++
  List.concat
    (map (fun f => map (fun c => (f ++ "_" ++ c)%string) (categories f))
         categorical_features).

(** Scores zipped to names positionally, sorted descending by score, the
    first five kept. *)
Definition explain (names : list string) (scores : list float) : list (string * float) :=
  firstn 5 (sorted_desc (combine names scores)).

(** Descending order of two neighbours: the first is not below the
    second. *)
Definition not_below (a b : string * float) : Prop := lt (snd a) (snd b) = false.

(** "For any two distinct internal failures the message returned to the
    caller is the same generic string." *)
Definition generic_error_message : Prop :=
  forall (st1 st2 : ServerState) (now : Z) (patient : PatientInput) (e1 e2 : Exception),
    model_predict_proba (model st1) patient = Raise e1 ->
    model_predict_proba (model st2) patient = Raise e2 ->
    snd (predict_survival st1 now patient) = snd (predict_survival st2 now patient).

(** "The pipeline path with its extension replaced by [_info] followed by
    the same extension": for a path [stem.ext], the path [stem_info.ext]. *)
Definition extension_replaced (info_path : string -> string) : Prop :=
  forall stem ext : string,
    Py.contains "." ext = false ->
    Py.contains "/" ext = false ->
    info_path (stem ++ "." ++ ext)%string = (stem ++ "_info." ++ ext)%string.

(** The same for the extension [pkl] alone: for a path [stem.pkl], the
    path [stem_info.pkl]. *)
Definition pkl_extension_replaced (info_path : string -> string) : Prop :=
  forall stem : string,
    info_path (stem ++ ".pkl")%string = (stem ++ "_info.pkl")%string.





End Spec.

(** ** Concrete artifacts and requests *)

Module Examples.
Import Py Backend.

(** The request of the repository's API test. *)
Definition patient : PatientInput :=
  mkPatient 45 "Female" "Matched sibling" 1 "AML" "Reduced-intensity" 0 180 30.

Definition payload : Payload :=
  mkPayload (Some 45%Z) (Some "Female") (Some "Matched sibling") (Some 1%Z)
            (Some "AML") (Some "Reduced-intensity") (Some 0%Z) (Some 180%Z)
            (Some 30%Z).

(** The same request with [age = 15]. *)
Definition payload_too_young : Payload :=
  mkPayload (Some 15%Z) (Some "Female") (Some "Matched sibling") (Some 1%Z)
            (Some "AML") (Some "Reduced-intensity") (Some 0%Z) (Some 180%Z)
            (Some 30%Z).

(** [2^e] and [0.75 * 2^e] as binary64 values. *)
Definition pow2 (e : Z) : float := S754_finite false 4503599627370496 (e - 52).
Definition pow2_x3 (e : Z) : float := S754_finite false 6755399441055744 (e - 53).

(** [0.75 * 2^-1], that is 0.375: a probability below the threshold. *)
Definition p_075 : float := pow2_x3 (-1).

Definition categories_of (feature : string) : list string :=
  if String.eqb feature "gender" then ["Female"; "Male"]
  else if String.eqb feature "donor_type" then
    ["Cord blood"; "Haploidentical"; "Matched sibling"; "Matched unrelated"]
  else if String.eqb feature "disease_type" then
    ["ALL"; "AML"; "Lymphoma"; "MDS"; "Other"]
  else if String.eqb feature "conditioning_intensity" then
    ["Myeloablative"; "Reduced-intensity"]
  else [].

(** Eighteen scores, one per derived feature: 0.25, 0.1875, 0.0625, ... *)
Definition importances : list float :=
  [pow2 (-2); pow2_x3 (-2); pow2 (-4); pow2 (-5); pow2 (-6);
   zero; zero;
   pow2 (-7); zero; pow2_x3 (-4); zero;
   zero; zero; zero; zero; zero;
   pow2 (-8); zero].

Definition learned : Trainer.Learned :=
  Trainer.mkLearned categories_of (Ok importances)
    (fun _ => Ok tt) (fun _ => Ok p_075).

Definition numeric_features : list string :=
  ["age"; "comorbidity_score"; "prior_transplants"; "time_from_diagnosis_days";
   "treatment_days"].

Definition pipeline : Pipeline :=
  Trainer.fit_pipeline
    (Trainer.make_preprocessor Trainer.categorical_features numeric_features) learned.

Definition no_hits : LimiterStorage := fun _ => None.

(** A freshly started server holding [pipeline]. *)
Definition started : ServerState :=
  mkState (Some (PickledPipeline pipeline)) None 0 0 [] no_hits.

(** A server whose start-up hook did not run. *)
Definition not_loaded : ServerState := mkState None None 0 0 [] no_hits.

(** A pipeline whose classifier fails on every row. *)
Definition broken_pipeline : Pipeline :=
  mkPipeline (steps pipeline)
    (fun _ => Raise (mkExc "ValueError" "feature_names mismatch")).

Definition broken : ServerState :=
  mkState (Some (PickledPipeline broken_pipeline)) None 0 0 [] no_hits.

(** A pipeline without importance scores. *)
Definition opaque_pipeline : Pipeline :=
  mkPipeline [] (fun _ => Ok p_075).

Definition opaque : ServerState :=
  mkState (Some (PickledPipeline opaque_pipeline)) None 0 0 [] no_hits.

Definition request_at (t : Z) (p : Payload) : Request := mkRequest "10.0.0.7" t p.



(** Draws for the generator: every real draw is 50, every choice the
    first option, every Poisson draw 11. *)
Definition trainer_rng : Trainer.RandomState :=
  Trainer.mkRandomState
    (fun _ => 50%Q) (fun _ => 0%nat) (fun _ => 0%nat) (fun _ => 11%nat)
    (fun _ => 0%nat) (fun _ => 0%nat)
    (fun _ => false) (fun _ => 50%Q) (fun _ => 50%Q) (fun _ => 50%Q) (fun _ => 50%Q)
    (fun _ _ => 50%Q).



(** The metadata the exporter saves next to [pipeline]. *)
Definition feature_info : FeatureInfo :=
  mkFeatureInfo Trainer.categorical_features numeric_features
    ["age"; "gender"; "donor_type"; "comorbidity_score"; "disease_type";
     "conditioning_intensity"; "prior_transplants"; "time_from_diagnosis_days";
     "treatment_days"].

(** A run of the exporter in which every outside call succeeds and no
    two paths name the same file. *)
Definition outcomes : Trainer.Outcomes :=
  Trainer.mkOutcomes (fun _ => Ok learned) (fun _ => Ok tt) (fun _ _ => Ok tt)
    (fun _ _ => false) (Ok p_075).

(** The same run in a directory that holds no [a_info.pkl]: a dump into
    it is refused. *)
Definition outcomes_without_info_directory : Trainer.Outcomes :=
  Trainer.mkOutcomes (fun _ => Ok learned) (fun _ => Ok tt)
    (fun _ path =>
       if String.prefix "a_info.pkl/" path
       then Raise (mkExc "FileNotFoundError"
                     ("[Errno 2] No such file or directory: '" ++ path ++ "'")%string)
       else Ok tt)
    (fun _ _ => false) (Ok p_075).

End Examples.

(** * Properties *)

Import Py Backend.

(** ** Floats *)

Lemma half_not_gt_half : gt half half = false.
Proof. reflexivity. Qed.

Lemma gt_nan_false (y : float) : gt S754_nan y = false.
Proof. unfold gt, SFltb, SFcompare. destruct y; reflexivity. Qed.

Lemma in_unit_interval_isfinite (x : float) :
  in_unit_interval x = true -> isfinite x = true.
Proof.
  destruct x as [s | s | | s m e]; intros H; try reflexivity.
  - destruct s; vm_compute in H; discriminate.
  - vm_compute in H; discriminate.
Qed.

(** ** Prediction: probability and label *)

Lemma get_feature_importance_total (st : ServerState) (x : PatientInput) :
  exists st' d, get_feature_importance st x = Ok (st', d).
Proof.
  unfold get_feature_importance.
  destruct (try_except _ _) as [st' d]. eauto.
Qed.

Lemma predict_survival_ok (st : ServerState) (now : Z) (patient : PatientInput) (p : float) :
  model_predict_proba (model st) patient = Ok p ->
  exists st' body,
    predict_survival st now patient = (st', Http200 body) /\
    probability body = p /\
    prediction body = (if gt p half then "Likely to survive" else "At risk") /\
    disclaimer body = disclaimer_text.
Proof.
  intros Hp.
  destruct (get_feature_importance_total st patient) as (st1 & d & Hd).
  unfold predict_survival, predict_body. rewrite Hp. cbn [bind].
  rewrite Hd. cbn [bind fst snd].
  eexists; eexists; repeat split.
Qed.

Lemma predict_survival_raise (st : ServerState) (now : Z) (patient : PatientInput)
  (e : Exception) :
  model_predict_proba (model st) patient = Raise e ->
  predict_survival st now patient =
    (emit (incr_error_count st) (LogError ("Prediction error: " ++ exc_str e)%string),
     Http500 (exc_str e)).
Proof.
  intros He. unfold predict_survival, predict_body. rewrite He. reflexivity.
Qed.

(** C1.  For every valid patient record on which the model yields a
    probability [p] in [0,1], [predict_survival] answers 200 with that
    probability, and the label is "Likely to survive" exactly when
    [p > 0.5] and "At risk" otherwise; in particular [p = 0.5] gives
    "At risk". *)
Theorem predict_probability_and_label
  (st : ServerState) (now : Z) (body_in : Payload) (patient : PatientInput) (p : float) :
  parse_patient body_in = inr patient ->
  model_predict_proba (model st) patient = Ok p ->
  in_unit_interval p = true ->
  exists st' body,
    predict_survival st now patient = (st', Http200 body) /\
    probability body = p /\
    in_unit_interval (probability body) = true /\
    (prediction body = "Likely to survive" <-> gt p half = true) /\
    (prediction body = "At risk" <-> gt p half = false) /\
    (p = half -> prediction body = "At risk").
Proof.
  intros _ Hp Hunit.
  destruct (predict_survival_ok st now patient p Hp) as (st' & body & Hrun & Hprob & Hlab & _).
  exists st', body. repeat split; try assumption.
  - now rewrite Hprob.
  - rewrite Hlab. destruct (gt p half); [reflexivity | discriminate].
  - rewrite Hlab. intros ->. reflexivity.
  - rewrite Hlab. destruct (gt p half); [discriminate | reflexivity].
  - rewrite Hlab. intros ->. reflexivity.
  - intros ->. rewrite Hlab. reflexivity.
Qed.

Lemma predict_probability_and_label_witness :
  exists st' body,
    predict_survival Examples.started 0 Examples.patient = (st', Http200 body) /\
    probability body = Examples.p_075 /\
    in_unit_interval (probability body) = true /\
    (prediction body = "Likely to survive" <-> gt Examples.p_075 half = true) /\
    (prediction body = "At risk" <-> gt Examples.p_075 half = false) /\
    (Examples.p_075 = half -> prediction body = "At risk").
Proof.
  apply (predict_probability_and_label Examples.started 0 Examples.payload
           Examples.patient Examples.p_075); reflexivity.
Defined.

(** ** Frame properties of the handler *)

Lemma get_feature_importance_frame (st st' : ServerState) (x : PatientInput)
  (d : list (string * value)) :
  get_feature_importance st x = Ok (st', d) ->
  model st' = model st /\
  feature_info st' = feature_info st /\
  prediction_count st' = prediction_count st /\
  error_count st' = error_count st /\
  limiter st' = limiter st.
Proof.
  unfold get_feature_importance, try_except.
  destruct (feature_importance_body (model st) x) as [fi | e]; cbn [bind];
    intros H; injection H as <- _; repeat split.
Qed.

Lemma predict_survival_frame (st : ServerState) (now : Z) (patient : PatientInput) :
  model (fst (predict_survival st now patient)) = model st /\
  limiter (fst (predict_survival st now patient)) = limiter st.
Proof.
  destruct (model_predict_proba (model st) patient) as [p | e] eqn:Hp.
  - destruct (get_feature_importance_total st patient) as (st1 & d & Hd).
    destruct (get_feature_importance_frame _ _ _ _ Hd) as (Hm & _ & _ & _ & Hl).
    unfold predict_survival, predict_body. rewrite Hp. cbn [bind].
    rewrite Hd. cbn [bind fst snd]. cbn. now rewrite Hm, Hl.
  - rewrite (predict_survival_raise _ _ _ _ Hp). cbn. split; reflexivity.
Qed.

Lemma post_predict_model (st : ServerState) (req : Request) :
  model (fst (post_predict st req)) = model st.
Proof.
  unfold post_predict.
  destruct (parse_patient (body_json req)) as [errs | patient]; [reflexivity |].
  destruct (limiter_hit _ _ _) as [storage admitted].
  destruct admitted; [| reflexivity].
  now rewrite (proj1 (predict_survival_frame _ _ _)).
Qed.

Lemma serve_model (reqs : list Request) (st : ServerState) :
  model (fst (serve st reqs)) = model st.
Proof.
  revert st. induction reqs as [| req rest IH]; intros st; [reflexivity |].
  cbn [serve].
  destruct (post_predict st req) as [st1 r] eqn:H1.
  destruct (serve st1 rest) as [st2 rs] eqn:H2.
  cbn [fst].
  change st2 with (fst (st2, rs)). rewrite <- H2, IH.
  change st1 with (fst (st1, r)). rewrite <- H1.
  apply post_predict_model.
Qed.

(** ** Schema validation *)

Lemma int_field_cases (name : string) (lo hi : Z) (v : option Z) :
  (Spec.in_range lo hi v = true /\ exists z, int_field name lo hi v = inr z) \/
  (Spec.in_range lo hi v = false /\ exists k, int_field name lo hi v = inl [(name, k)]).
Proof.
  unfold Spec.in_range, int_field. destruct v as [z |]; [| right; eauto].
  destruct (Z.ltb_spec z lo); [right | destruct (Z.ltb_spec hi z); [right | left]].
  - split; [| eauto]. apply andb_false_intro1. apply Z.leb_gt. lia.
  - split; [| eauto]. apply andb_false_intro2. apply Z.leb_gt. lia.
  - split; [| eauto]. apply andb_true_intro. split; apply Z.leb_le; lia.
Qed.

Lemma str_field_cases (name msg : string) (allowed : list string) (v : option string) :
  let validator :=
    fun s => if negb (str_in s allowed) then Raise (value_error msg) else Ok s in
  (Spec.in_enum allowed v = true /\ exists s, str_field name validator v = inr s) \/
  (Spec.in_enum allowed v = false /\ exists k, str_field name validator v = inl [(name, k)]).
Proof.
  unfold Spec.in_enum, str_field. destruct v as [s |]; [| right; eauto].
  destruct (str_in s allowed); cbn [negb]; [left | right]; eauto.
Qed.

Ltac field_case H :=
  let Hr := fresh "Hr" in
  let Hf := fresh "Hf" in
  destruct H as [[Hr [? Hf]] | [Hr [? Hf]]];
  rewrite Hr, ?Hf;
  [ | right; split;
      [ rewrite ?andb_false_r; reflexivity
      | eexists; split; [reflexivity | cbn [errors_of app]; discriminate] ] ].

(** The code's validation accepts exactly the well-formed payloads, and
    reports at least one field otherwise. *)
Lemma parse_patient_cases (p : Payload) :
  (Spec.well_formed p = true /\ exists patient, parse_patient p = inr patient) \/
  (Spec.well_formed p = false /\
   exists errs, parse_patient p = inl errs /\ errs <> []).
Proof.
  unfold Spec.well_formed, parse_patient.
  unfold validate_gender, validate_donor_type, validate_disease_type,
    validate_conditioning_intensity.
  cbv zeta.
  field_case (int_field_cases "age" 18 80 (raw_age p)).
  field_case (str_field_cases "gender" "Gender must be Male or Female"
                ["Male"; "Female"] (raw_gender p)).
  field_case (str_field_cases "donor_type"
                "Donor type must be one of: ['Matched sibling', 'Matched unrelated', 'Haploidentical', 'Cord blood']"
                ["Matched sibling"; "Matched unrelated"; "Haploidentical"; "Cord blood"]
                (raw_donor_type p)).
  field_case (int_field_cases "comorbidity_score" 0 10 (raw_comorbidity_score p)).
  field_case (str_field_cases "disease_type"
                "Disease type must be one of: ['AML', 'ALL', 'MDS', 'Lymphoma', 'Other']"
                ["AML"; "ALL"; "MDS"; "Lymphoma"; "Other"] (raw_disease_type p)).
  field_case (str_field_cases "conditioning_intensity"
                "Conditioning intensity must be one of: ['Myeloablative', 'Reduced-intensity']"
                ["Myeloablative"; "Reduced-intensity"] (raw_conditioning_intensity p)).
  field_case (int_field_cases "prior_transplants" 0 1 (raw_prior_transplants p)).
  field_case (int_field_cases "time_from_diagnosis_days" 1 5000
                (raw_time_from_diagnosis_days p)).
  field_case (int_field_cases "treatment_days" 1 365 (raw_treatment_days p)).
  left. split; [reflexivity | eauto].
Qed.

(** C4.  A payload in which a field is absent, out of range or outside
    its enumeration is answered with 422 and a non-empty field-level
    detail; the answer does not depend on the server state (the model is
    never consulted), and the state is left as it was: both counters, the
    log and the limiter storage are unchanged. *)
Theorem invalid_payload_rejected (st : ServerState) (req : Request) :
  Spec.well_formed (body_json req) = false ->
  exists errs,
    post_predict st req = (st, Http422 errs) /\
    errs <> [] /\
    status_code (snd (post_predict st req)) = 422%Z /\
    (forall st2, snd (post_predict st2 req) = Http422 errs) /\
    prediction_count (fst (post_predict st req)) = prediction_count st /\
    error_count (fst (post_predict st req)) = error_count st /\
    log (fst (post_predict st req)) = log st /\
    limiter (fst (post_predict st req)) = limiter st.
Proof.
  intros Hbad.
  destruct (parse_patient_cases (body_json req))
    as [[Hwf _] | [_ (errs & Hparse & Hne)]]; [congruence |].
  exists errs. unfold post_predict. rewrite Hparse. cbn [fst snd status_code].
  repeat split; assumption.
Qed.

Lemma invalid_payload_rejected_witness :
  exists errs,
    post_predict Examples.started (Examples.request_at 0 Examples.payload_too_young)
      = (Examples.started, Http422 errs) /\
    errs <> [] /\
    status_code
      (snd (post_predict Examples.started
              (Examples.request_at 0 Examples.payload_too_young))) = 422%Z /\
    (forall st2,
        snd (post_predict st2 (Examples.request_at 0 Examples.payload_too_young))
        = Http422 errs) /\
    prediction_count
      (fst (post_predict Examples.started
              (Examples.request_at 0 Examples.payload_too_young)))
      = prediction_count Examples.started /\
    error_count
      (fst (post_predict Examples.started
              (Examples.request_at 0 Examples.payload_too_young)))
      = error_count Examples.started /\
    log (fst (post_predict Examples.started
                (Examples.request_at 0 Examples.payload_too_young)))
      = log Examples.started /\
    limiter (fst (post_predict Examples.started
                    (Examples.request_at 0 Examples.payload_too_young)))
      = limiter Examples.started.
Proof.
  apply (invalid_payload_rejected Examples.started
           (Examples.request_at 0 Examples.payload_too_young)).
  reflexivity.
Defined.

(** ** Metrics *)

Lemma post_predict_admitted (st : ServerState) (req : Request) (patient : PatientInput) :
  parse_patient (body_json req) = inr patient ->
  snd (limiter_hit (limiter st) (remote_address req) (arrival req)) = true ->
  post_predict st req =
    predict_survival
      (set_limiter st (fst (limiter_hit (limiter st) (remote_address req) (arrival req))))
      (arrival req) patient.
Proof.
  intros Hparse Hadm. unfold post_predict. rewrite Hparse.
  destruct (limiter_hit _ _ _) as [storage admitted]. cbn [fst snd] in *.
  now rewrite Hadm.
Qed.

(** C5.  As read through [/metrics]: a request whose inference raises
    adds exactly one to [error_count] and leaves [prediction_count] as it
    was; a request rejected by validation leaves [error_count] as it was;
    so does a request whose explainability step fails while inference
    succeeds. *)
Theorem error_count_accounting
  (st : ServerState) (req : Request) (patient : PatientInput) (now : Z) :
  let before := get_metrics st now in
  let after := get_metrics (fst (post_predict st req)) now in
  (parse_patient (body_json req) = inr patient ->
   snd (limiter_hit (limiter st) (remote_address req) (arrival req)) = true ->
   (exists e, model_predict_proba (model st) patient = Raise e) ->
   metrics_error_count after = S (metrics_error_count before) /\
   metrics_prediction_count after = metrics_prediction_count before /\
   status_code (snd (post_predict st req)) = 500%Z) /\
  ((exists errs, parse_patient (body_json req) = inl errs) ->
   metrics_error_count after = metrics_error_count before) /\
  (parse_patient (body_json req) = inr patient ->
   snd (limiter_hit (limiter st) (remote_address req) (arrival req)) = true ->
   (exists p, model_predict_proba (model st) patient = Ok p) ->
   (exists e, feature_importance_body (model st) patient = Raise e) ->
   metrics_error_count after = metrics_error_count before /\
   status_code (snd (post_predict st req)) = 200%Z).
Proof.
  cbv zeta. unfold get_metrics. cbn [metrics_error_count metrics_prediction_count].
  split; [| split].
  - intros Hparse Hadm [e He].
    rewrite (post_predict_admitted _ _ _ Hparse Hadm).
    rewrite predict_survival_raise with (e := e) by exact He.
    repeat split.
  - intros [errs Hparse]. unfold post_predict. rewrite Hparse. reflexivity.
  - intros Hparse Hadm [p Hp] [e He].
    rewrite (post_predict_admitted _ _ _ Hparse Hadm).
    set (st1 := set_limiter st _).
    assert (Hm : model st1 = model st) by reflexivity.
    unfold predict_survival, predict_body, get_feature_importance, try_except.
    rewrite Hm, Hp, He. cbn [bind fst snd]. split; reflexivity.
Qed.

Lemma error_count_accounting_witness :
  (metrics_error_count
     (get_metrics (fst (post_predict Examples.broken
                          (Examples.request_at 0 Examples.payload))) 1)
   = S (metrics_error_count (get_metrics Examples.broken 1))) /\
  (metrics_error_count
     (get_metrics (fst (post_predict Examples.broken
                          (Examples.request_at 0 Examples.payload_too_young))) 1)
   = metrics_error_count (get_metrics Examples.broken 1)) /\
  (metrics_error_count
     (get_metrics (fst (post_predict Examples.opaque
                          (Examples.request_at 0 Examples.payload))) 1)
   = metrics_error_count (get_metrics Examples.opaque 1)).
Proof.
  split; [| split].
  - apply (proj1 (error_count_accounting Examples.broken
                    (Examples.request_at 0 Examples.payload) Examples.patient 1));
      [reflexivity | reflexivity | eexists; reflexivity].
  - apply (proj1 (proj2 (error_count_accounting Examples.broken
                    (Examples.request_at 0 Examples.payload_too_young)
                    Examples.patient 1))).
    eexists; reflexivity.
  - apply (proj2 (proj2 (error_count_accounting Examples.opaque
                    (Examples.request_at 0 Examples.payload) Examples.patient 1)));
      [reflexivity | reflexivity | eexists; reflexivity | eexists; reflexivity].
Defined.

(** ** The 500 response *)

(** C8, as stated, fails: a server whose model was never loaded and a
    server whose classifier rejects its input give two different
    messages for the same request. *)
Lemma generic_error_message_counterexample : ~ Spec.generic_error_message.
Proof.
  intros H.
  specialize (H Examples.not_loaded Examples.broken 0%Z Examples.patient
                (attribute_error "NoneType" "predict_proba")
                (mkExc "ValueError" "feature_names mismatch")
                eq_refl eq_refl).
  vm_compute in H. discriminate H.
Qed.

(** C8, amended.  An inference failure is answered with status 500 whose
    detail is exactly the text of the exception, [str(e)], and nothing
    else of it; it is counted once and logged.  Two failures are
    therefore answered alike exactly when their texts agree. *)
Theorem inference_error_response
  (st : ServerState) (now : Z) (patient : PatientInput) (e : Exception) :
  model_predict_proba (model st) patient = Raise e ->
  snd (predict_survival st now patient) = Http500 (exc_str e) /\
  status_code (snd (predict_survival st now patient)) = 500%Z /\
  error_count (fst (predict_survival st now patient)) = S (error_count st) /\
  (forall st2 now2 patient2 e2,
      model_predict_proba (model st2) patient2 = Raise e2 ->
      (snd (predict_survival st2 now2 patient2) = snd (predict_survival st now patient)
       <-> exc_str e2 = exc_str e)).
Proof.
  intros He. rewrite (predict_survival_raise _ _ _ _ He). cbn [fst snd status_code].
  repeat split.
  - rewrite (predict_survival_raise _ _ _ _ H). cbn [snd]. congruence.
  - intros Heq. rewrite (predict_survival_raise _ _ _ _ H). cbn [snd]. now rewrite Heq.
Qed.

Lemma inference_error_response_witness :
  snd (predict_survival Examples.not_loaded 0 Examples.patient)
    = Http500 "'NoneType' object has no attribute 'predict_proba'" /\
  status_code (snd (predict_survival Examples.not_loaded 0 Examples.patient)) = 500%Z.
Proof.
  destruct (inference_error_response Examples.not_loaded 0 Examples.patient
              (attribute_error "NoneType" "predict_proba") eq_refl)
    as (H1 & H2 & _).
  split; [exact H1 | exact H2].
Defined.

(** ** Determinism *)

Lemma same_model_same_probability
  (st1 st2 : ServerState) (now1 now2 : Z) (patient : PatientInput)
  (b1 b2 : PredictionResponse) :
  model st1 = model st2 ->
  snd (predict_survival st1 now1 patient) = Http200 b1 ->
  snd (predict_survival st2 now2 patient) = Http200 b2 ->
  probability b1 = probability b2 /\ prediction b1 = prediction b2.
Proof.
  intros Hm H1 H2.
  destruct (model_predict_proba (model st1) patient) as [p | e] eqn:Hp.
  - destruct (predict_survival_ok st1 now1 patient p Hp) as (s1 & c1 & R1 & P1 & L1 & _).
    rewrite Hm in Hp.
    destruct (predict_survival_ok st2 now2 patient p Hp) as (s2 & c2 & R2 & P2 & L2 & _).
    rewrite R1 in H1. rewrite R2 in H2. cbn [snd] in *.
    injection H1 as <-. injection H2 as <-. split; congruence.
  - rewrite (predict_survival_raise _ _ _ _ Hp) in H1. discriminate H1.
Qed.

(** C7.  Once a request for [patient] has been answered with a
    probability, the same request is answered with the identical
    probability (and label) after any further traffic: no handler writes
    the loaded model, and nothing but the model and the record enters
    the computation of the probability. *)
Theorem predict_deterministic
  (st : ServerState) (reqs : list Request) (now1 now2 : Z) (patient : PatientInput)
  (b1 : PredictionResponse) :
  snd (predict_survival st now1 patient) = Http200 b1 ->
  model (fst (serve (fst (predict_survival st now1 patient)) reqs)) = model st /\
  exists b2,
    snd (predict_survival (fst (serve (fst (predict_survival st now1 patient)) reqs))
           now2 patient) = Http200 b2 /\
    probability b2 = probability b1 /\
    prediction b2 = prediction b1.
Proof.
  intros H1.
  assert (Hm : model (fst (serve (fst (predict_survival st now1 patient)) reqs))
               = model st).
  { rewrite serve_model. apply predict_survival_frame. }
  split; [exact Hm |].
  destruct (model_predict_proba (model st) patient) as [p | e] eqn:Hp.
  - pose proof Hp as Hp2. rewrite <- Hm in Hp2.
    destruct (predict_survival_ok _ now2 patient p Hp2) as (s2 & b2 & R2 & _).
    exists b2. rewrite R2. cbn [snd]. split; [reflexivity |].
    assert (H2 : snd (predict_survival
                        (fst (serve (fst (predict_survival st now1 patient)) reqs))
                        now2 patient) = Http200 b2) by now rewrite R2.
    destruct (same_model_same_probability _ _ _ _ _ _ _ Hm H2 H1). split; assumption.
  - rewrite (predict_survival_raise _ _ _ _ Hp) in H1. discriminate H1.
Qed.

Lemma predict_deterministic_witness :
  exists b1 b2,
    snd (predict_survival Examples.started 0 Examples.patient) = Http200 b1 /\
    snd (predict_survival
           (fst (serve (fst (predict_survival Examples.started 0 Examples.patient))
                   [Examples.request_at 1 Examples.payload;
                    Examples.request_at 2 Examples.payload_too_young]))
           3 Examples.patient) = Http200 b2 /\
    probability b2 = probability b1.
Proof.
  destruct (predict_survival_ok Examples.started 0 Examples.patient Examples.p_075 eq_refl)
    as (s1 & b1 & R1 & _).
  assert (H1 : snd (predict_survival Examples.started 0 Examples.patient) = Http200 b1)
    by now rewrite R1.
  destruct (predict_deterministic Examples.started
              [Examples.request_at 1 Examples.payload;
               Examples.request_at 2 Examples.payload_too_young]
              0 3 Examples.patient b1 H1) as (_ & b2 & H2 & Hp & _).
  exists b1, b2. repeat split; assumption.
Defined.

(** ** Artifact paths *)

Lemma prefix_pkl_app (s : string) :
  s <> EmptyString ->
  String.prefix ".pkl" (s ++ ".pkl") = true ->
  String.prefix ".pkl" s = true.
Proof.
  intros Hne H.
  destruct s as [| c1 s]; [contradiction |].
  cbn [String.append String.prefix] in *.
  destruct (ascii_dec "." c1); [| discriminate H].
  destruct s as [| c2 s]; [discriminate H |].
  cbn [String.append String.prefix] in *.
  destruct (ascii_dec "p" c2); [| discriminate H].
  destruct s as [| c3 s]; [discriminate H |].
  cbn [String.append String.prefix] in *.
  destruct (ascii_dec "k" c3); [| discriminate H].
  destruct s as [| c4 s]; [discriminate H |].
  cbn [String.append String.prefix] in *.
  destruct (ascii_dec "l" c4); [| discriminate H].
  destruct s; reflexivity.
Qed.

Lemma replace_pkl_suffix (stem : string) :
  Py.contains ".pkl" stem = false ->
  Py.replace (stem ++ ".pkl") ".pkl" "_info.pkl" = (stem ++ "_info.pkl")%string.
Proof.
  unfold Py.replace.
  induction stem as [| c s IH]; intros Hno; [reflexivity |].
  cbn [Py.contains] in Hno. apply orb_false_elim in Hno as [Hhere Hrest].
  cbn [String.append Py.replace_from].
  destruct (String.prefix ".pkl" (String c (s ++ ".pkl"))) eqn:Hp.
  - change (String c (s ++ ".pkl")) with (String c s ++ ".pkl")%string in Hp.
    apply prefix_pkl_app in Hp; [congruence | discriminate].
  - now rewrite (IH Hrest).
Qed.

(** C9, as stated, fails, in two ways: a path whose extension is not
    [.pkl] is its own metadata path; and in a path with the extension
    [.pkl] an earlier [.pkl], here in the directory, is replaced as
    well. *)
Lemma extension_replaced_counterexample :
  ~ Spec.extension_replaced Backend.info_path_of /\
  ~ Spec.pkl_extension_replaced Backend.info_path_of.
Proof.
  split.
  - intros H. specialize (H "model/model" "joblib" eq_refl eq_refl).
    vm_compute in H. discriminate H.
  - intros H. specialize (H "a.pkl/m"). vm_compute in H. discriminate H.
Qed.

Lemma prefix_pkl_straddle (s t : string) :
  s <> EmptyString ->
  String.prefix ".pkl" (s ++ ".pkl" ++ t) = true ->
  String.prefix ".pkl" s = true.
Proof.
  intros Hne H.
  destruct s as [| c1 s]; [contradiction |].
  cbn [String.append String.prefix] in *.
  destruct (ascii_dec "." c1); [| discriminate H].
  destruct s as [| c2 s]; [discriminate H |].
  cbn [String.append String.prefix] in *.
  destruct (ascii_dec "p" c2); [| discriminate H].
  destruct s as [| c3 s]; [discriminate H |].
  cbn [String.append String.prefix] in *.
  destruct (ascii_dec "k" c3); [| discriminate H].
  destruct s as [| c4 s]; [discriminate H |].
  cbn [String.append String.prefix] in *.
  destruct (ascii_dec "l" c4); [| discriminate H].
  destruct s; reflexivity.
Qed.

(** The first occurrence of [.pkl] is replaced and the scan resumes
    after it: by repetition, every occurrence is replaced. *)
Lemma replace_from_step (old new : string) (c : ascii) (s : string) :
  Py.replace_from old new (String c s) 0 =
  if String.prefix old (String c s)
  then (new ++ Py.replace_from old new s (String.length old - 1))%string
  else String c (Py.replace_from old new s 0).
Proof. reflexivity. Qed.

Lemma replace_pkl_app (a b : string) :
  Py.contains ".pkl" a = false ->
  Py.replace (a ++ ".pkl" ++ b) ".pkl" "_info.pkl" =
  (a ++ "_info.pkl" ++ Py.replace b ".pkl" "_info.pkl")%string.
Proof.
  unfold Py.replace. intros Hno.
  induction a as [| c a IH].
  - cbn. now destruct b.
  - cbn [Py.contains] in Hno. apply orb_false_elim in Hno as [Hhere Hrest].
    specialize (IH Hrest).
    change (String c a ++ ".pkl" ++ b)%string with (String c (a ++ ".pkl" ++ b)).
    rewrite replace_from_step.
    destruct (String.prefix ".pkl" (String c (a ++ ".pkl" ++ b))) eqn:Hp.
    + change (String c (a ++ ".pkl" ++ b)) with (String c a ++ ".pkl" ++ b)%string in Hp.
      apply prefix_pkl_straddle in Hp; [congruence | discriminate].
    + rewrite IH. reflexivity.
Qed.

Lemma replace_no_occurrence (old new s : string) :
  Py.contains old s = false -> Py.replace s old new = s.
Proof.
  unfold Py.replace. induction s as [| c s IH]; intros H; [reflexivity |].
  cbn [Py.contains] in H. apply orb_false_elim in H as [Hhere Hrest].
  cbn [Py.replace_from]. rewrite Hhere. now rewrite (IH Hrest).
Qed.

(** What a run of the exporter that returns has done: the fit returned,
    the directory of the output path is not empty, the path does not end
    with a slash, and the files are the old ones with the pipeline
    written at the output path and then the metadata at the metadata
    path. *)
Lemma export_returns
  (exp : Q -> Q) (o : Trainer.Outcomes) (fs : FileSystem) (output_path : string)
  (rng : Trainer.RandomState) (pipeline : Pipeline) (info : FeatureInfo) :
  snd (Trainer.train_and_export_model exp o fs output_path rng) = Ok (pipeline, info) ->
  let df := Trainer.generate_synthetic_hct_data exp 3000 rng in
  let X_columns :=
    filter (fun c => negb (String.eqb c Trainer.target)) (Trainer.columns df) in
  let nums := Trainer.numeric_features_of X_columns in
  let info_path := Trainer.info_path_of output_path in
  (exists l,
      Trainer.fit_outcome o df = Ok l /\
      pipeline =
        Trainer.fit_pipeline
          (Trainer.make_preprocessor Trainer.categorical_features nums) l) /\
  info = mkFeatureInfo Trainer.categorical_features nums X_columns /\
  Py.dirname output_path <> "" /\
  Py.endswith output_path "/" = false /\
  fst (Trainer.train_and_export_model exp o fs output_path rng) =
    (fun p =>
       if String.eqb p info_path || Trainer.same_file o p info_path
       then Some (PickledInfo info)
       else if String.eqb p output_path || Trainer.same_file o p output_path
            then Some (PickledPipeline pipeline)
            else fs p).
Proof.
  cbv zeta. unfold Trainer.train_and_export_model. cbv zeta.
  destruct (Trainer.fit_outcome o _) as [l |] eqn:Hfit; [| discriminate].
  unfold Trainer.makedirs.
  destruct (String.eqb_spec (Py.dirname output_path) "") as [| Hdir]; [discriminate |].
  destruct (Trainer.makedirs_outcome o (Py.dirname output_path)); [| discriminate].
  unfold Trainer.joblib_dump.
  destruct (Py.endswith output_path "/") eqn:Hslash; [discriminate |].
  destruct (Trainer.dump_outcome o 0 output_path); [| discriminate].
  destruct (Py.endswith (Trainer.info_path_of output_path) "/"); [discriminate |].
  destruct (Trainer.dump_outcome o 1 (Trainer.info_path_of output_path));
    [| discriminate].
  destruct (Trainer.test_prediction o); [| discriminate].
  cbn [fst snd]. intros H. injection H as <- <-.
  repeat split; try assumption. exists l. split; reflexivity.
Qed.

(** C9, amended.  The trainer and the server derive the metadata path
    from the pipeline path by the same rule: the first [.pkl] is replaced
    by [_info.pkl] and the rule applies again to what follows, so every
    occurrence is replaced, and a path without [.pkl] is its own metadata
    path.  Whenever the export returns, the server started on its files
    therefore loads as its metadata what the trainer wrote as metadata;
    and for a path [stem.pkl] whose stem holds no [.pkl] the metadata
    path is [stem_info.pkl]. *)
Theorem info_path_agreement
  (exp : Q -> Q) (o : Trainer.Outcomes) (fs : FileSystem)
  (output_path base_dir : string) (rng : Trainer.RandomState) (st : ServerState) :
  Backend.info_path_of output_path = Trainer.info_path_of output_path /\
  (forall a b : string,
      Py.contains ".pkl" a = false ->
      Backend.info_path_of (a ++ ".pkl" ++ b) =
        (a ++ "_info.pkl" ++ Backend.info_path_of b)%string /\
      Trainer.info_path_of (a ++ ".pkl" ++ b) =
        (a ++ "_info.pkl" ++ Trainer.info_path_of b)%string) /\
  (Py.contains ".pkl" output_path = false ->
   Backend.info_path_of output_path = output_path /\
   Trainer.info_path_of output_path = output_path) /\
  (forall exported : Pipeline * FeatureInfo,
      snd (Trainer.train_and_export_model exp o fs output_path rng) = Ok exported ->
      let files := fst (Trainer.train_and_export_model exp o fs output_path rng) in
      let loaded := load_model files (Some output_path) base_dir st in
      files (Trainer.info_path_of output_path) = Some (PickledInfo (snd exported)) /\
      snd loaded = Ok tt /\
      feature_info (fst loaded) = Some (PickledInfo (snd exported))) /\
  (forall stem : string,
      Py.contains ".pkl" stem = false ->
      output_path = (stem ++ ".pkl")%string ->
      Backend.info_path_of output_path = (stem ++ "_info.pkl")%string /\
      Trainer.info_path_of output_path = (stem ++ "_info.pkl")%string).
Proof.
  split; [reflexivity |]. split; [| split; [| split]].
  - intros a b Hno. unfold Backend.info_path_of, Trainer.info_path_of.
    rewrite (replace_pkl_app a b Hno). split; reflexivity.
  - intros Hno. unfold Backend.info_path_of, Trainer.info_path_of.
    rewrite (replace_no_occurrence _ _ _ Hno). split; reflexivity.
  - intros [pipeline info] Hret. cbv zeta.
    destruct (export_returns exp o fs output_path rng pipeline info Hret)
      as (_ & _ & _ & _ & Hfiles).
    rewrite Hfiles. cbn [snd].
    unfold load_model, model_path_of, joblib_load.
    change (Backend.info_path_of output_path) with (Trainer.info_path_of output_path).
    rewrite !String.eqb_refl. cbn [orb].
    destruct (String.eqb output_path (Trainer.info_path_of output_path)
              || Trainer.same_file o output_path (Trainer.info_path_of output_path));
      repeat split.
  - intros stem Hno ->. unfold Backend.info_path_of, Trainer.info_path_of.
    rewrite (replace_pkl_suffix stem Hno). split; reflexivity.
Qed.

Lemma info_path_agreement_witness :
  Backend.info_path_of "model/model.pkl" = "model/model_info.pkl" /\
  Trainer.info_path_of "model/model.pkl" = "model/model_info.pkl".
Proof.
  apply (proj2 (proj2 (proj2 (proj2
           (info_path_agreement (fun q => q) Examples.outcomes
              (fun _ => None) "model/model.pkl" "/srv"
              Examples.trainer_rng Examples.started)))) "model/model");
    reflexivity.
Defined.

(** ** Rate limiting *)











(** ** Dictionaries and sorting *)

Section DictFacts.

Context {V : Type}.

Lemma dict_set_fresh (d : list (string * V)) (k : string) (v : V) :
  ~ In k (keys d) -> dict_set d k v = d ++ [(k, v)].
Proof.
  induction d as [| [k' v'] d IH]; intros Hk; [reflexivity |].
  cbn [dict_set keys map fst In app] in *.
  destruct (String.eqb_spec k' k) as [-> | Hne].
  - exfalso. apply Hk. now left.
  - rewrite IH; [reflexivity |]. intros Hin. apply Hk. now right.
Qed.

Lemma dict_set_In (d : list (string * V)) (k : string) (v : V) (x : string * V) :
  In x (dict_set d k v) -> In x d \/ x = (k, v).
Proof.
  induction d as [| [k' v'] d IH]; cbn [dict_set In].
  - intros [<- | []]. now right.
  - destruct (String.eqb_spec k' k) as [-> | Hne]; cbn [In].
    + intros [<- | Hin]; [now right | left; now right].
    + intros [<- | Hin]; [left; now left |].
      destruct (IH Hin) as [H | H]; [left; now right | now right].
Qed.

Lemma dict_set_length (d : list (string * V)) (k : string) (v : V) :
  List.length (dict_set d k v) <= S (List.length d).
Proof.
  induction d as [| [k' v'] d IH]; cbn [dict_set List.length]; [lia |].
  destruct (String.eqb k' k); cbn [List.length]; lia.
Qed.

Lemma fold_dict_set_In (items acc : list (string * V)) (x : string * V) :
  In x (fold_left (fun d kv => dict_set d (fst kv) (snd kv)) items acc) ->
  In x acc \/ In x items.
Proof.
  revert acc. induction items as [| [k v] items IH]; intros acc; cbn [fold_left In fst snd].
  - now left.
  - intros H. destruct (IH _ H) as [H1 | H1]; [| right; now right].
    destruct (dict_set_In _ _ _ _ H1) as [H2 | ->]; [now left | right; now left].
Qed.

Lemma fold_dict_set_length (items acc : list (string * V)) :
  List.length (fold_left (fun d kv => dict_set d (fst kv) (snd kv)) items acc)
  <= List.length acc + List.length items.
Proof.
  revert acc. induction items as [| [k v] items IH]; intros acc;
    cbn [fold_left List.length fst snd]; [lia |].
  specialize (IH (dict_set acc k v)). pose proof (dict_set_length acc k v). lia.
Qed.

Lemma dict_of_items_In (items : list (string * V)) (x : string * V) :
  In x (dict_of_items items) -> In x items.
Proof.
  intros H. destruct (fold_dict_set_In items [] x H) as [[] | H']; exact H'.
Qed.

Lemma dict_of_items_length (items : list (string * V)) :
  List.length (dict_of_items items) <= List.length items.
Proof. apply (fold_dict_set_length items []). Qed.

Lemma fold_dict_set_distinct (items acc : list (string * V)) :
  NoDup (keys acc ++ keys items) ->
  fold_left (fun d kv => dict_set d (fst kv) (snd kv)) items acc = acc ++ items.
Proof.
  revert acc. induction items as [| [k v] items IH]; intros acc Hnd;
    cbn [fold_left fst snd keys map] in *.
  - now rewrite app_nil_r.
  - rewrite dict_set_fresh.
    + rewrite IH.
      * now rewrite <- app_assoc.
      * unfold keys. rewrite map_app, <- app_assoc. exact Hnd.
    + apply NoDup_remove_2 in Hnd. intros Hin. apply Hnd. apply in_or_app. now left.
Qed.

(** On pairs with distinct keys [dict] changes nothing. *)
Lemma dict_of_items_distinct (items : list (string * V)) :
  NoDup (keys items) -> dict_of_items items = items.
Proof. intros H. apply (fold_dict_set_distinct items []). exact H. Qed.

End DictFacts.

Lemma all_distinct_NoDup (l : list string) : all_distinct l = true -> NoDup l.
Proof.
  induction l as [| x l IH]; cbn [all_distinct]; intros H; constructor;
    apply andb_prop in H as [Hx Hl].
  - intros Hin. apply negb_true_iff in Hx.
    assert (E : existsb (String.eqb x) l = true).
    { apply existsb_exists. exists x. split; [exact Hin | apply String.eqb_refl]. }
    congruence.
  - now apply IH.
Qed.

Lemma SFcompare_antisym (x y : float) :
  SFcompare y x = match SFcompare x y with
                  | Some c => Some (CompOpp c)
                  | None => None
                  end.
Proof.
  destruct x as [sx | sx | | sx mx ex], y as [sy | sy | | sy my ey];
    try reflexivity;
    try (destruct sx; reflexivity);
    try (destruct sy; reflexivity);
    try (destruct sx, sy; reflexivity).
  unfold SFcompare.
  destruct sx, sy; try reflexivity;
    rewrite (Z.compare_antisym ex ey); destruct (ex ?= ey)%Z; cbn [CompOpp];
    try reflexivity.
  - now rewrite (Pos.compare_cont_antisym mx my Eq).
  - now rewrite (Pos.compare_cont_antisym mx my Eq).
Qed.

(** [a < b] excludes [b < a], also when a NaN is involved. *)
Lemma lt_asym (x y : float) : lt x y = true -> lt y x = false.
Proof.
  unfold lt, SFltb. rewrite (SFcompare_antisym x y).
  destruct (SFcompare x y) as [[| |] |]; cbn [CompOpp]; congruence.
Qed.

Section SortFacts.

Context {K : Type}.

Let descending (a b : K * float) : Prop := lt (snd a) (snd b) = false.

Lemma insert_desc_perm (x : K * float) (l : list (K * float)) :
  Permutation (insert_desc x l) (x :: l).
Proof.
  induction l as [| y l IH]; cbn [insert_desc]; [apply Permutation_refl |].
  destruct (lt (snd x) (snd y)); [| apply Permutation_refl].
  eapply perm_trans; [apply perm_skip, IH | apply perm_swap].
Qed.

Lemma sorted_desc_perm (l : list (K * float)) : Permutation (sorted_desc l) l.
Proof.
  induction l as [| x l IH]; cbn [sorted_desc fold_right]; [constructor |].
  eapply perm_trans; [apply insert_desc_perm | now apply perm_skip].
Qed.

Lemma insert_desc_hd (x y : K * float) (l : list (K * float)) :
  descending y x -> HdRel descending y l -> HdRel descending y (insert_desc x l).
Proof.
  intros Hyx Hhd. destruct l as [| z l]; cbn [insert_desc]; [now constructor |].
  destruct (lt (snd x) (snd z)); constructor; [now inversion Hhd | exact Hyx].
Qed.

Lemma insert_desc_sorted (x : K * float) (l : list (K * float)) :
  Sorted descending l -> Sorted descending (insert_desc x l).
Proof.
  induction l as [| y l IH]; intros Hs; cbn [insert_desc].
  - repeat constructor.
  - inversion Hs as [| ? ? Hl Hhd]; subst.
    destruct (lt (snd x) (snd y)) eqn:Hxy.
    + constructor; [now apply IH |].
      apply insert_desc_hd; [| exact Hhd]. now apply lt_asym.
    + constructor; [exact Hs | now constructor].
Qed.

(** The result of [sorted(..., reverse=True)] is in descending order. *)
Lemma sorted_desc_sorted (l : list (K * float)) : Sorted descending (sorted_desc l).
Proof.
  induction l as [| x l IH]; cbn [sorted_desc fold_right]; [constructor |].
  now apply insert_desc_sorted.
Qed.

Lemma Sorted_firstn (n : nat) (l : list (K * float)) :
  Sorted descending l -> Sorted descending (firstn n l).
Proof.
  revert l. induction n as [| n IH]; intros l Hs; [constructor |].
  destruct l as [| x l]; [constructor |]. cbn [firstn].
  inversion Hs as [| ? ? Hl Hhd]; subst. constructor; [now apply IH |].
  destruct n as [| n]; [constructor |].
  destruct l as [| y l]; cbn [firstn]; constructor. now inversion Hhd.
Qed.

End SortFacts.

(** ** The importance loop *)

Lemma skipn_nth (l : list string) (i : nat) :
  i < List.length l -> skipn i l = nth i l "" :: skipn (S i) l.
Proof.
  revert i. induction l as [| x l IH]; intros i Hi; cbn [List.length] in Hi; [lia |].
  destruct i as [| i]; [reflexivity |].
  cbn [skipn nth]. apply IH. lia.
Qed.

Lemma firstn_S_nth (l : list string) (i : nat) :
  i < List.length l -> firstn (S i) l = firstn i l ++ [nth i l ""].
Proof.
  revert i. induction l as [| x l IH]; intros i Hi; cbn [List.length] in Hi; [lia |].
  destruct i as [| i]; [reflexivity |].
  cbn [firstn nth app]. f_equal. apply IH. lia.
Qed.

Lemma nth_not_in_firstn (l : list string) (i : nat) :
  NoDup l -> i < List.length l -> ~ In (nth i l "") (firstn i l).
Proof.
  intros Hnd Hi Hin.
  rewrite <- (firstn_skipn i l) in Hnd. rewrite (skipn_nth l i Hi) in Hnd.
  apply NoDup_remove_2 in Hnd. apply Hnd. apply in_or_app. now left.
Qed.

Lemma fill_importance_In (names : list string) (scores : list float) :
  forall (i : nat) (d : list (string * float)) (x : string * float),
    In x (fill_importance names scores i d) -> In x d \/ In (snd x) scores.
Proof.
  induction scores as [| s rest IH]; intros i d x; cbn [fill_importance In].
  - now left.
  - intros H. destruct (IH _ _ _ H) as [H1 | H1]; [| right; now right].
    destruct (Nat.ltb i (List.length names)); [| now left].
    destruct (dict_set_In _ _ _ _ H1) as [H2 | ->]; [now left | right; now left].
Qed.

(** With distinct names the loop is the positional zip. *)
Lemma fill_importance_zip (names : list string) (scores : list float) :
  NoDup names ->
  forall (i : nat) (d : list (string * float)),
    keys d = firstn i names ->
    fill_importance names scores i d = d ++ combine (skipn i names) scores.
Proof.
  intros Hnd. induction scores as [| s rest IH]; intros i d Hk; cbn [fill_importance].
  - destruct (skipn i names); cbn [combine]; now rewrite app_nil_r.
  - destruct (Nat.ltb_spec i (List.length names)) as [Hi | Hi].
    + rewrite dict_set_fresh
        by (rewrite Hk; now apply nth_not_in_firstn).
      rewrite IH.
      * rewrite (skipn_nth names i Hi). cbn [combine]. now rewrite <- app_assoc.
      * unfold keys in *. rewrite map_app, Hk. cbn [map fst].
        symmetry. now apply firstn_S_nth.
    + rewrite IH.
      * rewrite !skipn_all2 by lia. reflexivity.
      * rewrite Hk. rewrite !firstn_all2 by lia. reflexivity.
Qed.

Lemma top_five_length (d : list (string * float)) : List.length (top_five d) <= 5.
Proof.
  unfold top_five.
  pose proof (dict_of_items_length (firstn 5 (sorted_desc d))) as H1.
  pose proof (firstn_le_length 5 (sorted_desc d)) as H2. lia.
Qed.

Lemma top_five_In (d : list (string * float)) (x : string * float) :
  In x (top_five d) -> In x d.
Proof.
  unfold top_five. intros H. apply dict_of_items_In in H.
  apply (Permutation_in x (sorted_desc_perm d)).
  rewrite <- (firstn_skipn 5 (sorted_desc d)). apply in_or_app. now left.
Qed.

Lemma NoDup_firstn {A : Type} (n : nat) (l : list A) : NoDup l -> NoDup (firstn n l).
Proof.
  intros H. rewrite <- (firstn_skipn n l) in H. now apply NoDup_app_remove_r in H.
Qed.

Lemma keys_combine_NoDup (names : list string) (scores : list float) :
  NoDup names -> NoDup (keys (combine names scores)).
Proof.
  intros Hnd. revert scores.
  induction Hnd as [| k names Hk Hnd IH]; intros scores; [constructor |].
  destruct scores as [| s scores]; cbn [combine keys map fst]; constructor.
  - intros Hin. apply Hk. apply in_map_iff in Hin as ([k' v] & <- & Hin).
    now apply in_combine_l in Hin.
  - apply IH.
Qed.

(** With distinct keys the last two lines keep the five first items of
    the sorted list as they are. *)
Lemma top_five_distinct (d : list (string * float)) :
  NoDup (keys d) -> top_five d = firstn 5 (sorted_desc d).
Proof.
  intros Hnd. unfold top_five. apply dict_of_items_distinct.
  unfold keys. rewrite <- firstn_map. apply NoDup_firstn.
  apply (Permutation_NoDup (l := map fst d)); [| exact Hnd].
  apply Permutation_map, Permutation_sym, sorted_desc_perm.
Qed.

(** What the [try] block returns when it returns: the top five of the
    dictionary filled from the scores of the ["xgb"] step. *)
Lemma feature_importance_body_ok (m : option Pickle) (x : PatientInput)
  (d : list (string * float)) :
  feature_importance_body m x = Ok d ->
  exists named xgb scores names,
    named_steps m = Ok named /\
    getitem named "xgb" = Ok xgb /\
    get_feature_importances_ xgb = Ok scores /\
    d = top_five (fill_importance names scores 0 []).
Proof.
  unfold feature_importance_body.
  destruct (named_steps m) as [named |] eqn:Hn; cbn [bind]; [| discriminate].
  destruct (getitem named "xgb") as [xgb |] eqn:Hx; cbn [bind]; [| discriminate].
  destruct (get_feature_importances_ xgb) as [scores |] eqn:Hs; cbn [bind];
    [| discriminate].
  destruct (getitem named "preproc") as [pre |]; cbn [bind]; [| discriminate].
  destruct (as_preprocessor pre "transform") as [ct |]; cbn [bind]; [| discriminate].
  destruct (transform ct x) as [u |]; cbn [bind]; [| discriminate].
  destruct (collect_feature_names (transformers_ ct) []) as [names |]; cbn [bind];
    [| discriminate].
  intros H. injection H as <-. exists named, xgb, scores, names.
  repeat split; assumption.
Qed.

Lemma combine_map_self {A B : Type} (f : A -> B) (l : list A) :
  combine l (map f l) = map (fun a => (a, f a)) l.
Proof. induction l as [| a l IH]; cbn [combine map]; [reflexivity | now rewrite IH]. Qed.

(** On a pipeline fitted from [make_preprocessor] the loop over
    [transformers_] yields the numeric names, then the names of every
    category of every categorical feature. *)
Lemma collect_feature_names_fitted (cats nums : list string) (l : Trainer.Learned) :
  collect_feature_names
    (map (Trainer.fit_entry l) (Trainer.make_preprocessor cats nums)) [] =
  Ok (Spec.derived_feature_names nums cats (Trainer.learned_categories l)).
Proof.
  unfold Trainer.make_preprocessor, Spec.derived_feature_names.
  cbn [map Trainer.fit_entry Trainer.fit_step fst snd collect_feature_names].
  change (String.eqb "num" "num") with true.
  change (String.eqb "cat" "num") with false.
  change (String.eqb "cat" "cat") with true.
  cbv beta iota.
  change (getitem _ "onehot") with
    (Ok (OneHotEncoder "ignore" false (map (Trainer.learned_categories l) cats))).
  cbn [bind has_get_feature_names_out get_feature_names_out].
  rewrite length_map, Nat.eqb_refl. cbn [bind app].
  rewrite combine_map_self, map_map. reflexivity.
Qed.

(** ** Explainability *)

(** X1.  [get_feature_importance] never raises.  Provided the scores the
    classifier exposes are finite, its result is either a dictionary of
    at most five entries whose values are finite floats, or exactly the
    fallback [{"note": "Feature importance unavailable"}]; a failure of
    the [try] block always yields the fallback.  Whatever the outcome, a
    request whose probability was computed is answered 200, with the
    returned dictionary under ["feature_importance"]. *)
Theorem explain_never_raises (st : ServerState) (now : Z) (x : PatientInput) :
  (forall named xgb scores,
     named_steps (model st) = Ok named ->
     getitem named "xgb" = Ok xgb ->
     get_feature_importances_ xgb = Ok scores ->
     Forall (fun s => isfinite s = true) scores) ->
  exists st' d,
    get_feature_importance st x = Ok (st', d) /\
    ((List.length d <= 5 /\
      Forall (fun kv => exists f, snd kv = VFloat f /\ isfinite f = true) d) \/
     d = fallback_importance) /\
    (forall e, feature_importance_body (model st) x = Raise e ->
               d = fallback_importance) /\
    (forall p, model_predict_proba (model st) x = Ok p ->
       exists st'' body,
         predict_survival st now x = (st'', Http200 body) /\
         dict_get (explainability body) "feature_importance" = Some (VDict d)).
Proof.
  intros Hfinite.
  assert (Hcall : forall st' d, get_feature_importance st x = Ok (st', d) ->
            forall p, model_predict_proba (model st) x = Ok p ->
            exists st'' body,
              predict_survival st now x = (st'', Http200 body) /\
              dict_get (explainability body) "feature_importance" = Some (VDict d)).
  { intros st' d Hd p Hp. unfold predict_survival, predict_body.
    rewrite Hp. cbn [bind]. rewrite Hd. cbn [bind fst snd].
    eexists; eexists; split; reflexivity. }
  destruct (feature_importance_body (model st) x) as [fi | e] eqn:Hbody.
  - exists st, (float_dict fi).
    assert (Hrun : get_feature_importance st x = Ok (st, float_dict fi)).
    { unfold get_feature_importance. rewrite Hbody. reflexivity. }
    split; [exact Hrun |]. split; [| split].
    + left.
      destruct (feature_importance_body_ok _ _ _ Hbody)
        as (named & xgb & scores & names & Hn & Hx & Hs & ->).
      split.
      * unfold float_dict. rewrite length_map. apply top_five_length.
      * unfold float_dict. apply Forall_forall. intros kv Hin.
        apply in_map_iff in Hin as (kf & <- & Hin). cbn [snd].
        exists (snd kf). split; [reflexivity |].
        apply top_five_In in Hin.
        destruct (fill_importance_In _ _ _ _ _ Hin) as [[] | Hin'].
        pose proof (Hfinite named xgb scores Hn Hx Hs) as Hall.
        rewrite Forall_forall in Hall. now apply Hall.
    + intros e He. discriminate.
    + now apply Hcall with (st' := st).
  - set (st1 := emit st (LogWarning
                  ("Could not compute feature importance: " ++ exc_str e)%string)).
    exists st1, fallback_importance.
    assert (Hrun : get_feature_importance st x = Ok (st1, fallback_importance)).
    { unfold get_feature_importance. rewrite Hbody. reflexivity. }
    split; [exact Hrun |]. split; [now right | split].
    + reflexivity.
    + now apply Hcall with (st' := st1).
Qed.

Lemma importances_finite : Forall (fun s => isfinite s = true) Examples.importances.
Proof. repeat (apply Forall_cons; [reflexivity |]). apply Forall_nil. Qed.

Lemma explain_never_raises_witness :
  exists st' d,
    get_feature_importance Examples.started Examples.patient = Ok (st', d) /\
    ((List.length d <= 5 /\
      Forall (fun kv => exists f, snd kv = VFloat f /\ isfinite f = true) d) \/
     d = fallback_importance) /\
    (forall e, feature_importance_body (model Examples.started) Examples.patient = Raise e ->
               d = fallback_importance) /\
    (forall p, model_predict_proba (model Examples.started) Examples.patient = Ok p ->
       exists st'' body,
         predict_survival Examples.started 0 Examples.patient = (st'', Http200 body) /\
         dict_get (explainability body) "feature_importance" = Some (VDict d)).
Proof.
  apply (explain_never_raises Examples.started 0 Examples.patient).
  intros named xgb scores Hn Hx Hs.
  vm_compute in Hn. injection Hn as <-.
  vm_compute in Hx. injection Hx as <-.
  vm_compute in Hs. injection Hs as <-.
  exact importances_finite.
Defined.

(** *** The order of the scores *)

Ltac order_cases :=
  repeat match goal with
         | |- context [(?a ?= ?b)%Z] => destruct (Z.compare_spec a b); subst
         | |- context [Pos.compare_cont Eq ?a ?b] =>
             change (Pos.compare_cont Eq a b) with (Pos.compare a b);
             destruct (Pos.compare_spec a b); subst
         end;
  cbn; try (intros; (discriminate || (left; reflexivity) || (right; reflexivity) || lia)).

(** If [a < c] then any finite [b] is above [a] or below [c]. *)
Lemma lt_cotransitive (a b c : float) :
  isfinite b = true -> lt a c = true -> lt a b = true \/ lt b c = true.
Proof.
  unfold lt, SFltb.
  destruct b as [sb | sb | | sb mb eb]; try discriminate; intros _;
    destruct a as [sa | sa | | sa ma ea], c as [sc | sc | | sc mc ec];
    cbn; try discriminate;
    repeat match goal with s : bool |- _ => destruct s end; cbn;
    try discriminate; try (intros _; (left; reflexivity) || (right; reflexivity)).
  all: order_cases.
Qed.

Lemma not_lt_trans (a b c : float) :
  isfinite b = true -> lt a b = false -> lt b c = false -> lt a c = false.
Proof.
  intros Hb Hab Hbc. destruct (lt a c) eqn:Hac; [| reflexivity].
  destruct (lt_cotransitive a b c Hb Hac); congruence.
Qed.

Section RankFacts.

Context {K : Type}.

Let finite_score (x : K * float) : Prop := isfinite (snd x) = true.
Let descending (a b : K * float) : Prop := lt (snd a) (snd b) = false.

Lemma insert_desc_In (x y : K * float) (l : list (K * float)) :
  In y (insert_desc x l) -> y = x \/ In y l.
Proof.
  intros H. apply (Permutation_in y (insert_desc_perm x l)) in H.
  destruct H as [<- | H]; [now left | now right].
Qed.

Lemma insert_desc_strongly (x : K * float) (l : list (K * float)) :
  Forall finite_score l ->
  StronglySorted descending l -> StronglySorted descending (insert_desc x l).
Proof.
  induction l as [| y l IH]; intros Hfin Hs; cbn [insert_desc].
  - repeat constructor.
  - inversion Hs as [| ? ? Hl Hall]; subst.
    inversion Hfin as [| ? ? Hy Hfin']; subst.
    destruct (lt (snd x) (snd y)) eqn:Hxy.
    + constructor; [now apply IH |].
      apply Forall_forall. intros z Hz.
      destruct (insert_desc_In _ _ _ Hz) as [-> | Hz'].
      * now apply lt_asym.
      * rewrite Forall_forall in Hall. now apply Hall.
    + constructor; [exact Hs |].
      constructor; [exact Hxy |].
      apply Forall_forall. intros z Hz. rewrite Forall_forall in Hall.
      apply (not_lt_trans (snd x) (snd y) (snd z) Hy Hxy). now apply Hall.
Qed.

Lemma sorted_desc_strongly (l : list (K * float)) :
  Forall finite_score l -> StronglySorted descending (sorted_desc l).
Proof.
  induction l as [| x l IH]; intros Hfin; cbn [sorted_desc fold_right]; [constructor |].
  inversion Hfin as [| ? ? Hx Hfin']; subst.
  apply insert_desc_strongly; [| now apply IH].
  apply Forall_forall. intros y Hy.
  apply (Permutation_in y (sorted_desc_perm l)) in Hy.
  rewrite Forall_forall in Hfin'. now apply Hfin'.
Qed.

Lemma StronglySorted_split (l1 l2 : list (K * float)) :
  StronglySorted descending (l1 ++ l2) ->
  forall a b, In a l1 -> In b l2 -> descending a b.
Proof.
  induction l1 as [| x l1 IH]; intros Hs a b Ha Hb; [destruct Ha |].
  cbn [app] in Hs. inversion Hs as [| ? ? Hl Hall]; subst.
  destruct Ha as [<- | Ha].
  - rewrite Forall_forall in Hall. apply Hall. apply in_or_app. now right.
  - now apply IH.
Qed.

(** With finite scores, nothing beyond the first [n] items of the sorted
    list has a score above one of the first [n]. *)
Lemma sorted_desc_firstn_top (n : nat) (l : list (K * float)) :
  Forall finite_score l ->
  forall k x,
    In k (firstn n (sorted_desc l)) -> In x l -> ~ In x (firstn n (sorted_desc l)) ->
    descending k x.
Proof.
  intros Hfin k x Hk Hx Hnot.
  apply (StronglySorted_split (firstn n (sorted_desc l)) (skipn n (sorted_desc l)));
    [rewrite firstn_skipn; now apply sorted_desc_strongly | exact Hk |].
  apply (Permutation_in x (Permutation_sym (sorted_desc_perm l))) in Hx.
  rewrite <- (firstn_skipn n (sorted_desc l)) in Hx.
  apply in_app_or in Hx as [Hx | Hx]; [contradiction | exact Hx].
Qed.

Lemma StronglySorted_app_l (l1 l2 : list (K * float)) :
  StronglySorted descending (l1 ++ l2) -> StronglySorted descending l1.
Proof.
  induction l1 as [| x l1 IH]; intros Hs; [constructor |].
  cbn [app] in Hs. inversion Hs as [| ? ? Hl Hall]; subst.
  constructor; [now apply IH |].
  apply Forall_app in Hall. apply Hall.
Qed.

Lemma StronglySorted_firstn (n : nat) (l : list (K * float)) :
  StronglySorted descending l -> StronglySorted descending (firstn n l).
Proof.
  intros Hs. rewrite <- (firstn_skipn n l) in Hs. now apply StronglySorted_app_l in Hs.
Qed.

End RankFacts.

Lemma dict_set_keys {V : Type} (d : list (string * V)) (k : string) (v : V) :
  keys (dict_set d k v) = if str_in k (keys d) then keys d else keys d ++ [k].
Proof.
  unfold str_in, keys. induction d as [| [k' v'] d IH]; [reflexivity |].
  cbn [dict_set map fst existsb app] in *.
  rewrite (String.eqb_sym k k').
  destruct (String.eqb k' k); cbn [orb map fst]; [reflexivity |].
  rewrite IH. now destruct (existsb (String.eqb k) (map fst d)).
Qed.

Lemma dict_set_keys_NoDup {V : Type} (d : list (string * V)) (k : string) (v : V) :
  NoDup (keys d) -> NoDup (keys (dict_set d k v)).
Proof.
  intros Hnd. rewrite dict_set_keys. unfold str_in.
  destruct (existsb (String.eqb k) (keys d)) eqn:Hin; [exact Hnd |].
  apply NoDup_app; [exact Hnd | repeat constructor; intros [] |].
  intros x Hx [-> | []].
  assert (existsb (String.eqb x) (keys d) = true); [| congruence].
  apply existsb_exists. exists x. split; [exact Hx | apply String.eqb_refl].
Qed.

Lemma fill_importance_keys_NoDup (names : list string) (scores : list float) :
  forall (i : nat) (d : list (string * float)),
    NoDup (keys d) -> NoDup (keys (fill_importance names scores i d)).
Proof.
  induction scores as [| s rest IH]; intros i d Hnd; cbn [fill_importance]; [exact Hnd |].
  apply IH. destruct (Nat.ltb i (List.length names)); [| exact Hnd].
  now apply dict_set_keys_NoDup.
Qed.

(** X2.  On a pipeline fitted from [make_preprocessor] whose derived
    feature names are distinct, whose scores are finite, and whose
    [transform] accepts the record, [get_feature_importance] returns,
    without touching the state, the first five pairs of the positional
    zip of the derived names (numeric names, then one name per category
    of each categorical feature) with the scores, sorted by descending
    score (no entry is below a later one); scores beyond the names are
    dropped. *)
Theorem explain_on_fitted_pipeline
  (st : ServerState) (x : PatientInput) (nums cats : list string)
  (l : Trainer.Learned) (scores : list float) :
  model st =
    Some (PickledPipeline (Trainer.fit_pipeline (Trainer.make_preprocessor cats nums) l)) ->
  Trainer.learned_importances l = Ok scores ->
  Forall (fun s => isfinite s = true) scores ->
  Trainer.learned_transform l x = Ok tt ->
  NoDup (Spec.derived_feature_names nums cats (Trainer.learned_categories l)) ->
  let names := Spec.derived_feature_names nums cats (Trainer.learned_categories l) in
  get_feature_importance st x = Ok (st, float_dict (Spec.explain names scores)) /\
  StronglySorted Spec.not_below (Spec.explain names scores) /\
  List.length (Spec.explain names scores) =
    Nat.min 5 (Nat.min (List.length names) (List.length scores)).
Proof.
  intros Hm Hs Hfin Ht Hnd names.
  assert (Hbody : feature_importance_body (model st) x = Ok (Spec.explain names scores)).
  { unfold feature_importance_body. rewrite Hm.
    unfold Trainer.fit_pipeline. cbn [named_steps steps bind].
    change (getitem _ "xgb") with
      (Ok (Classifier (mkXGB (Trainer.learned_importances l)))).
    cbn [bind get_feature_importances_ feature_importances_]. rewrite Hs. cbn [bind].
    change (getitem _ "preproc") with
      (Ok (Preprocessor
             (mkColumnTransformer
                (map (Trainer.fit_entry l) (Trainer.make_preprocessor cats nums))
                (Trainer.learned_transform l)))).
    cbn [bind as_preprocessor transform transformers_]. rewrite Ht. cbn [bind].
    rewrite collect_feature_names_fitted. cbn [bind]. fold names.
    rewrite (fill_importance_zip names scores Hnd 0 []) by reflexivity.
    cbn [app skipn]. rewrite top_five_distinct by now apply keys_combine_NoDup.
    reflexivity. }
  split; [| split].
  - unfold get_feature_importance. rewrite Hbody. reflexivity.
  - unfold Spec.explain. apply StronglySorted_firstn. apply sorted_desc_strongly.
    apply Forall_forall. intros [k v] Hin. apply in_combine_r in Hin.
    rewrite Forall_forall in Hfin. now apply Hfin.
  - unfold Spec.explain. rewrite length_firstn.
    rewrite (Permutation_length (sorted_desc_perm (combine names scores))).
    now rewrite length_combine.
Qed.

Lemma explain_on_fitted_pipeline_witness :
  get_feature_importance Examples.started Examples.patient =
  Ok (Examples.started,
      float_dict
        (Spec.explain
           (Spec.derived_feature_names Examples.numeric_features
              Trainer.categorical_features Examples.categories_of)
           Examples.importances)).
Proof.
  apply (explain_on_fitted_pipeline Examples.started Examples.patient
           Examples.numeric_features Trainer.categorical_features Examples.learned
           Examples.importances); try reflexivity.
  - exact importances_finite.
  - apply all_distinct_NoDup. vm_compute. reflexivity.
Defined.

(** X3.  Whatever the names, when the scores are finite the dictionary
    [get_feature_importance] builds in its last two lines holds distinct
    names, has five entries or as many as there are candidates, lists
    them by descending score, and keeps the highest: no candidate that
    was dropped has a score above one that was kept. *)
Theorem top_five_are_the_highest (names : list string) (scores : list float) :
  Forall (fun s => isfinite s = true) scores ->
  let candidates := fill_importance names scores 0 [] in
  let kept := top_five candidates in
  NoDup (keys kept) /\
  List.length kept = Nat.min 5 (List.length candidates) /\
  (forall x, In x kept -> In x candidates) /\
  Sorted Spec.not_below kept /\
  (forall k x, In k kept -> In x candidates -> ~ In x kept ->
               lt (snd k) (snd x) = false).
Proof.
  intros Hfin candidates kept.
  assert (Hnd : NoDup (keys candidates)).
  { apply fill_importance_keys_NoDup. constructor. }
  assert (Hkept : kept = firstn 5 (sorted_desc candidates)).
  { now apply top_five_distinct. }
  assert (Hcand : Forall (fun x : string * float => isfinite (snd x) = true) candidates).
  { apply Forall_forall. intros x Hx.
    destruct (fill_importance_In _ _ _ _ _ Hx) as [[] | Hs].
    rewrite Forall_forall in Hfin. now apply Hfin. }
  repeat split.
  - rewrite Hkept. unfold keys. rewrite <- firstn_map. apply NoDup_firstn.
    apply (Permutation_NoDup (l := map fst candidates)); [| exact Hnd].
    apply Permutation_map, Permutation_sym, sorted_desc_perm.
  - rewrite Hkept, length_firstn.
    now rewrite (Permutation_length (sorted_desc_perm candidates)).
  - intros x. apply top_five_In.
  - rewrite Hkept. apply Sorted_firstn, sorted_desc_sorted.
  - rewrite Hkept. intros k x. now apply sorted_desc_firstn_top.
Qed.

Lemma top_five_are_the_highest_witness :
  Sorted Spec.not_below
    (top_five
       (fill_importance
          (Spec.derived_feature_names Examples.numeric_features
             Trainer.categorical_features Examples.categories_of)
          Examples.importances 0 [])).
Proof.
  exact (proj1 (proj2 (proj2 (proj2
           (top_five_are_the_highest
              (Spec.derived_feature_names Examples.numeric_features
                 Trainer.categorical_features Examples.categories_of)
              Examples.importances importances_finite))))).
Defined.

(** ** Counters over a run of requests *)

Lemma predict_survival_counters (st : ServerState) (now : Z) (patient : PatientInput) :
  (exists body,
      snd (predict_survival st now patient) = Http200 body /\
      prediction_count (fst (predict_survival st now patient)) = S (prediction_count st) /\
      error_count (fst (predict_survival st now patient)) = error_count st) \/
  (exists detail,
      snd (predict_survival st now patient) = Http500 detail /\
      prediction_count (fst (predict_survival st now patient)) = prediction_count st /\
      error_count (fst (predict_survival st now patient)) = S (error_count st)).
Proof.
  destruct (model_predict_proba (model st) patient) as [p | e] eqn:Hp.
  - left. destruct (get_feature_importance_total st patient) as (st1 & d & Hd).
    destruct (get_feature_importance_frame _ _ _ _ Hd) as (_ & _ & Hpc & Hec & _).
    unfold predict_survival, predict_body. rewrite Hp. cbn [bind].
    rewrite Hd. cbn [bind fst snd]. eexists. split; [reflexivity |].
    cbn. now rewrite Hpc, Hec.
  - right. rewrite (predict_survival_raise _ _ _ _ Hp). eexists. repeat split.
Qed.

Lemma post_predict_counters (st : ServerState) (req : Request) :
  prediction_count (fst (post_predict st req)) =
    prediction_count st
    + count_occ Z.eq_dec [status_code (snd (post_predict st req))] 200%Z /\
  error_count (fst (post_predict st req)) =
    error_count st
    + count_occ Z.eq_dec [status_code (snd (post_predict st req))] 500%Z.
Proof.
  unfold post_predict.
  destruct (parse_patient (body_json req)) as [errs | patient]; [cbn; lia |].
  destruct (limiter_hit (limiter st) (remote_address req) (arrival req))
    as [storage admitted].
  destruct admitted; [| cbn; lia].
  destruct (predict_survival_counters (set_limiter st storage) (arrival req) patient)
    as [(body & -> & -> & ->) | (detail & -> & -> & ->)]; cbn; lia.
Qed.

(** X4.  Over any run of [POST /predict] calls, from any state, there is
    one response per request, [prediction_count] grows by the number of
    200 responses and [error_count] by the number of 500 responses;
    rejected calls (422, 429) count in neither, and [GET /metrics]
    afterwards reports exactly these two totals. *)
Theorem serve_counters (reqs : list Request) (st : ServerState) (now : Z) :
  let st' := fst (serve st reqs) in
  let codes := map status_code (snd (serve st reqs)) in
  List.length codes = List.length reqs /\
  prediction_count st' = prediction_count st + count_occ Z.eq_dec codes 200%Z /\
  error_count st' = error_count st + count_occ Z.eq_dec codes 500%Z /\
  get_metrics st' now =
    mkMetrics (prediction_count st + count_occ Z.eq_dec codes 200%Z)
              (error_count st + count_occ Z.eq_dec codes 500%Z) now.
Proof.
  cbv zeta.
  assert (H : List.length (map status_code (snd (serve st reqs))) = List.length reqs /\
              prediction_count (fst (serve st reqs)) =
                prediction_count st
                + count_occ Z.eq_dec (map status_code (snd (serve st reqs))) 200%Z /\
              error_count (fst (serve st reqs)) =
                error_count st
                + count_occ Z.eq_dec (map status_code (snd (serve st reqs))) 500%Z).
  { revert st. induction reqs as [| req rest IH]; intros st; cbn [serve].
    - cbn. repeat split; lia.
    - destruct (post_predict_counters st req) as [Hp He].
      destruct (post_predict st req) as [st1 r]. cbn [fst snd] in Hp, He.
      destruct (IH st1) as (Hl & Hp' & He').
      destruct (serve st1 rest) as [st2 rs]. cbn [fst snd map List.length] in *.
      split; [now rewrite Hl |].
      change (status_code r :: map status_code rs)
        with ([status_code r] ++ map status_code rs).
      rewrite !count_occ_app. split; lia. }
  destruct H as (Hl & Hp & He). repeat split; try assumption.
  unfold get_metrics. now rewrite Hp, He.
Qed.

(** ** The metadata global *)

Lemma predict_survival_feature_info (st : ServerState) (fi : option Pickle) (now : Z)
  (patient : PatientInput) :
  predict_survival (set_feature_info st fi) now patient =
  (set_feature_info (fst (predict_survival st now patient)) fi,
   snd (predict_survival st now patient)).
Proof.
  unfold predict_survival, predict_body, get_feature_importance, try_except.
  cbn [model set_feature_info].
  destruct (model_predict_proba (model st) patient) as [p | e]; cbn [bind]; [| reflexivity].
  destruct (feature_importance_body (model st) patient) as [d | e]; reflexivity.
Qed.

Lemma post_predict_feature_info (st : ServerState) (fi : option Pickle) (req : Request) :
  post_predict (set_feature_info st fi) req =
  (set_feature_info (fst (post_predict st req)) fi, snd (post_predict st req)).
Proof.
  unfold post_predict.
  destruct (parse_patient (body_json req)) as [errs | patient]; [reflexivity |].
  cbn [limiter set_feature_info].
  destruct (limiter_hit (limiter st) (remote_address req) (arrival req))
    as [storage admitted].
  destruct admitted; [| reflexivity].
  apply (predict_survival_feature_info (set_limiter st storage)).
Qed.

Lemma serve_feature_info (reqs : list Request) (st : ServerState) (fi : option Pickle) :
  serve (set_feature_info st fi) reqs =
  (set_feature_info (fst (serve st reqs)) fi, snd (serve st reqs)).
Proof.
  revert st. induction reqs as [| req rest IH]; intros st; cbn [serve]; [reflexivity |].
  rewrite post_predict_feature_info.
  destruct (post_predict st req) as [st1 r]. cbn [fst snd].
  rewrite IH. destruct (serve st1 rest) as [st2 rs]. reflexivity.
Qed.

(** X5.  The metadata global [feature_info] is written at start-up and
    never read: whatever it holds, every response of a run of
    [POST /predict] calls is the same, and so are [GET /metrics] and
    [GET /health] afterwards; the handlers never assign it. *)
Theorem feature_info_never_read
  (st : ServerState) (fi : option Pickle) (reqs : list Request) (now : Z) :
  let with_fi := serve (set_feature_info st fi) reqs in
  let without := serve st reqs in
  snd with_fi = snd without /\
  get_metrics (fst with_fi) now = get_metrics (fst without) now /\
  health_check (fst with_fi) now = health_check (fst without) now /\
  feature_info (fst with_fi) = fi.
Proof.
  cbv zeta. rewrite serve_feature_info. cbn [fst snd]. repeat split.
Qed.

(** ** Start-up failures *)

(** A validated request on a server whose model cannot predict: the
    limiter decides between 429 and the handler, and the handler answers
    500 with the text of the exception, counting one error. *)
Lemma post_predict_when_model_raises
  (st : ServerState) (req : Request) (patient : PatientInput) (e : Exception) :
  parse_patient (body_json req) = inr patient ->
  model_predict_proba (model st) patient = Raise e ->
  let admitted := snd (limiter_hit (limiter st) (remote_address req) (arrival req)) in
  snd (post_predict st req) = (if admitted then Http500 (exc_str e) else Http429) /\
  error_count (fst (post_predict st req)) =
    (if admitted then S (error_count st) else error_count st) /\
  prediction_count (fst (post_predict st req)) = prediction_count st.
Proof.
  intros Hparse He. cbv zeta. unfold post_predict. rewrite Hparse.
  destruct (limiter_hit (limiter st) (remote_address req) (arrival req))
    as [storage admitted].
  cbn [snd]. destruct admitted; [| repeat split].
  rewrite (predict_survival_raise (set_limiter st storage) (arrival req) patient e He).
  repeat split.
Qed.

(** X6.  When the model file is absent, [load_model] logs the failure
    and raises [FileNotFoundError] without assigning either global.  In
    the state it leaves, a process that had no model still answers
    [GET /health] with status "healthy" ([model_loaded] false), and a
    validated prediction request is answered 500 with the text of the
    [AttributeError] on [None], counted in [error_count], when the
    limiter admits it, and 429 when it does not: never 200. *)
Theorem startup_without_model_file
  (fs : FileSystem) (env_MODEL_PATH : option string) (base_dir : string)
  (st : ServerState) (now : Z) (req : Request) (patient : PatientInput) :
  fs (model_path_of env_MODEL_PATH base_dir) = None ->
  model st = None ->
  parse_patient (body_json req) = inr patient ->
  let model_path := model_path_of env_MODEL_PATH base_dir in
  let message :=
    ("[Errno 2] No such file or directory: '" ++ model_path ++ "'")%string in
  let st' := fst (load_model fs env_MODEL_PATH base_dir st) in
  let admitted := snd (limiter_hit (limiter st') (remote_address req) (arrival req)) in
  snd (load_model fs env_MODEL_PATH base_dir st) =
    Raise (mkExc "FileNotFoundError" message) /\
  st' = emit st (LogError ("Failed to load model: " ++ message)%string) /\
  health_check st' now = mkHealth "healthy" false now /\
  snd (post_predict st' req) =
    (if admitted
     then Http500 "'NoneType' object has no attribute 'predict_proba'"
     else Http429) /\
  error_count (fst (post_predict st' req)) =
    (if admitted then S (error_count st) else error_count st) /\
  prediction_count (fst (post_predict st' req)) = prediction_count st.
Proof.
  intros Hfs Hm Hparse. cbv zeta.
  unfold load_model, joblib_load. rewrite Hfs. cbn [fst snd].
  split; [reflexivity |]. split; [reflexivity |]. split.
  - unfold health_check. cbn [model emit]. now rewrite Hm.
  - match goal with
    | |- context [post_predict ?s req] =>
        destruct (post_predict_when_model_raises s req patient
                    (attribute_error "NoneType" "predict_proba") Hparse)
          as (Hr & He & Hp); [cbn [model emit]; now rewrite Hm |]
    end.
    cbv zeta in Hr, He. split; [exact Hr | split; [exact He | exact Hp]].
Qed.

Lemma startup_without_model_file_witness :
  snd (post_predict
         (fst (load_model (fun _ => None) None "/" Examples.not_loaded))
         (Examples.request_at 0 Examples.payload)) =
  Http500 "'NoneType' object has no attribute 'predict_proba'".
Proof.
  exact (proj1 (proj2 (proj2 (proj2
           (startup_without_model_file (fun _ => None) None "/" Examples.not_loaded
              0 (Examples.request_at 0 Examples.payload) Examples.patient
              eq_refl eq_refl eq_refl))))).
Defined.

(** X7.  When the model file is present and the metadata file is absent,
    [load_model] raises [FileNotFoundError] for the metadata path, but
    the [model] global has already been assigned: [feature_info] is left
    as it was, [GET /health] reports [model_loaded] true, and a record
    the pipeline accepts is answered 200 with the pipeline's
    probability. *)
Theorem startup_without_metadata_file
  (fs : FileSystem) (env_MODEL_PATH : option string) (base_dir : string)
  (st : ServerState) (p : Pipeline) (now : Z) (patient : PatientInput) (q : float) :
  fs (model_path_of env_MODEL_PATH base_dir) = Some (PickledPipeline p) ->
  fs (info_path_of (model_path_of env_MODEL_PATH base_dir)) = None ->
  predict_proba p patient = Ok q ->
  let info_path := info_path_of (model_path_of env_MODEL_PATH base_dir) in
  let st' := fst (load_model fs env_MODEL_PATH base_dir st) in
  snd (load_model fs env_MODEL_PATH base_dir st) =
    Raise (mkExc "FileNotFoundError"
             ("[Errno 2] No such file or directory: '" ++ info_path ++ "'")%string) /\
  model st' = Some (PickledPipeline p) /\
  feature_info st' = feature_info st /\
  health_check st' now = mkHealth "healthy" true now /\
  exists st'' body,
    predict_survival st' now patient = (st'', Http200 body) /\
    probability body = q.
Proof.
  intros Hm Hi Hq. cbv zeta.
  unfold load_model, joblib_load. rewrite Hm, Hi. cbn [fst snd].
  repeat split.
  match goal with
  | |- exists st'' body, predict_survival ?s _ _ = _ /\ _ =>
      destruct (predict_survival_ok s now patient q) as (st'' & body & Hrun & Hp & _);
      [exact Hq | exists st'', body; split; assumption]
  end.
Qed.

Lemma startup_without_metadata_file_witness :
  model (fst (load_model
                (fun path : string =>
                   if String.eqb path "/srv/model.pkl"
                   then Some (PickledPipeline Examples.pipeline) else None)
                (Some "/srv/model.pkl") "/app" Examples.not_loaded)) =
  Some (PickledPipeline Examples.pipeline).
Proof.
  apply (startup_without_metadata_file
           (fun path : string =>
              if String.eqb path "/srv/model.pkl"
              then Some (PickledPipeline Examples.pipeline) else None)
           (Some "/srv/model.pkl") "/app"
           Examples.not_loaded Examples.pipeline 0 Examples.patient Examples.p_075);
    reflexivity.
Defined.

(** ** What validation reports and what it lets through *)

Lemma int_field_errors (name : string) (lo hi : Z) (v : option Z) :
  map fst (errors_of (int_field name lo hi v)) =
  if Spec.in_range lo hi v then [] else [name].
Proof.
  destruct (int_field_cases name lo hi v) as [[-> [z ->]] | [-> [k ->]]]; reflexivity.
Qed.

Lemma str_field_errors (name msg : string) (allowed : list string) (v : option string) :
  map fst
    (errors_of
       (str_field name
          (fun s => if negb (str_in s allowed) then Raise (value_error msg) else Ok s) v)) =
  if Spec.in_enum allowed v then [] else [name].
Proof.
  destruct (str_field_cases name msg allowed v) as [[-> [z ->]] | [-> [k ->]]];
    reflexivity.
Qed.

Lemma int_field_inr (name : string) (lo hi : Z) (v : option Z) (z : Z) :
  int_field name lo hi v = inr z -> v = Some z /\ (lo <= z <= hi)%Z.
Proof.
  unfold int_field. destruct v as [z' |]; [| discriminate].
  destruct (Z.ltb_spec z' lo); [discriminate |].
  destruct (Z.ltb_spec hi z'); [discriminate |].
  intros Heq. injection Heq as <-. split; [reflexivity | lia].
Qed.

Lemma str_field_inr (name msg : string) (allowed : list string) (v : option string)
  (s : string) :
  str_field name
    (fun s => if negb (str_in s allowed) then Raise (value_error msg) else Ok s) v = inr s ->
  v = Some s /\ str_in s allowed = true.
Proof.
  unfold str_field. destruct v as [s' |]; [| discriminate].
  destruct (str_in s' allowed) eqn:Hin; cbn [negb]; [| discriminate].
  intros H. injection H as <-. split; [reflexivity | exact Hin].
Qed.

(** The two outcomes of [parse_patient] in terms of its nine checks. *)
Lemma parse_patient_outcome (p : Payload) :
  let f_age := int_field "age" 18 80 (raw_age p) in
  let f_gender := str_field "gender" validate_gender (raw_gender p) in
  let f_donor := str_field "donor_type" validate_donor_type (raw_donor_type p) in
  let f_comorb := int_field "comorbidity_score" 0 10 (raw_comorbidity_score p) in
  let f_disease := str_field "disease_type" validate_disease_type (raw_disease_type p) in
  let f_cond :=
    str_field "conditioning_intensity" validate_conditioning_intensity
      (raw_conditioning_intensity p) in
  let f_prior := int_field "prior_transplants" 0 1 (raw_prior_transplants p) in
  let f_time := int_field "time_from_diagnosis_days" 1 5000 (raw_time_from_diagnosis_days p) in
  let f_treat := int_field "treatment_days" 1 365 (raw_treatment_days p) in
  (exists x,
      parse_patient p = inr x /\
      f_age = inr (age x) /\ f_gender = inr (gender x) /\
      f_donor = inr (donor_type x) /\ f_comorb = inr (comorbidity_score x) /\
      f_disease = inr (disease_type x) /\ f_cond = inr (conditioning_intensity x) /\
      f_prior = inr (prior_transplants x) /\ f_time = inr (time_from_diagnosis_days x) /\
      f_treat = inr (treatment_days x)) \/
  parse_patient p =
    inl (errors_of f_age ++ errors_of f_gender ++ errors_of f_donor ++
         errors_of f_comorb ++ errors_of f_disease ++ errors_of f_cond ++
         errors_of f_prior ++ errors_of f_time ++ errors_of f_treat).
Proof.
  unfold parse_patient. cbv zeta.
  generalize (int_field "age" 18 80 (raw_age p)).
  generalize (str_field "gender" validate_gender (raw_gender p)).
  generalize (str_field "donor_type" validate_donor_type (raw_donor_type p)).
  generalize (int_field "comorbidity_score" 0 10 (raw_comorbidity_score p)).
  generalize (str_field "disease_type" validate_disease_type (raw_disease_type p)).
  generalize (str_field "conditioning_intensity" validate_conditioning_intensity
                (raw_conditioning_intensity p)).
  generalize (int_field "prior_transplants" 0 1 (raw_prior_transplants p)).
  generalize (int_field "time_from_diagnosis_days" 1 5000 (raw_time_from_diagnosis_days p)).
  generalize (int_field "treatment_days" 1 365 (raw_treatment_days p)).
  intros f9 f8 f7 f6 f5 f4 f3 f2 f1.
  destruct f1; [now right |]. destruct f2; [now right |].
  destruct f3; [now right |]. destruct f4; [now right |].
  destruct f5; [now right |]. destruct f6; [now right |].
  destruct f7; [now right |]. destruct f8; [now right |].
  destruct f9; [now right |].
  left. eexists. repeat split.
Qed.

Lemma filter_cons_app {A : Type} (f : A -> bool) (x : A) (l : list A) :
  filter f (x :: l) = (if f x then [x] else []) ++ filter f l.
Proof. cbn [filter]. now destruct (f x). Qed.

Lemma if_negb_singleton {A : Type} (b : bool) (x : A) :
  (if negb b then [x] else []) = (if b then [] else [x]).
Proof. now destruct b. Qed.

Lemma field_names_NoDup : NoDup Spec.field_names.
Proof. apply all_distinct_NoDup. reflexivity. Qed.

(** X8.  When validation fails, the 422 detail names exactly the fields
    that are absent or break their rule, each once, in declaration order
    (every field is checked, not only the first offending one). *)
Theorem validation_detail_names (p : Payload) (errs : list FieldError) :
  parse_patient p = inl errs ->
  map fst errs = filter (fun name => negb (Spec.field_valid p name)) Spec.field_names /\
  NoDup (map fst errs) /\
  errs <> [].
Proof.
  intros Hparse.
  assert (Hnames : map fst errs =
            filter (fun name => negb (Spec.field_valid p name)) Spec.field_names).
  { destruct (parse_patient_outcome p) as [(x & Hx & _) | Herrs]; [congruence |].
    rewrite Herrs in Hparse. injection Hparse as <-.
    rewrite !map_app.
    unfold validate_gender, validate_donor_type, validate_disease_type,
      validate_conditioning_intensity. cbv zeta.
    rewrite !int_field_errors.
    rewrite (str_field_errors "gender" "Gender must be Male or Female").
    rewrite (str_field_errors "donor_type"
               "Donor type must be one of: ['Matched sibling', 'Matched unrelated', 'Haploidentical', 'Cord blood']").
    rewrite (str_field_errors "disease_type"
               "Disease type must be one of: ['AML', 'ALL', 'MDS', 'Lymphoma', 'Other']").
    rewrite (str_field_errors "conditioning_intensity"
               "Conditioning intensity must be one of: ['Myeloablative', 'Reduced-intensity']").
    unfold Spec.field_names. rewrite !filter_cons_app. cbn [filter].
    change (Spec.field_valid p "age") with (Spec.in_range 18 80 (raw_age p)).
    change (Spec.field_valid p "gender")
      with (Spec.in_enum ["Male"; "Female"] (raw_gender p)).
    change (Spec.field_valid p "donor_type")
      with (Spec.in_enum
              ["Matched sibling"; "Matched unrelated"; "Haploidentical"; "Cord blood"]
              (raw_donor_type p)).
    change (Spec.field_valid p "comorbidity_score")
      with (Spec.in_range 0 10 (raw_comorbidity_score p)).
    change (Spec.field_valid p "disease_type")
      with (Spec.in_enum ["AML"; "ALL"; "MDS"; "Lymphoma"; "Other"] (raw_disease_type p)).
    change (Spec.field_valid p "conditioning_intensity")
      with (Spec.in_enum ["Myeloablative"; "Reduced-intensity"]
              (raw_conditioning_intensity p)).
    change (Spec.field_valid p "prior_transplants")
      with (Spec.in_range 0 1 (raw_prior_transplants p)).
    change (Spec.field_valid p "time_from_diagnosis_days")
      with (Spec.in_range 1 5000 (raw_time_from_diagnosis_days p)).
    change (Spec.field_valid p "treatment_days")
      with (Spec.in_range 1 365 (raw_treatment_days p)).
    rewrite !if_negb_singleton, app_nil_r. reflexivity. }
  split; [exact Hnames |]. split.
  - rewrite Hnames. apply NoDup_filter, field_names_NoDup.
  - destruct (parse_patient_cases p) as [[_ [x Hx]] | [_ (errs' & He & Hne)]];
      congruence.
Qed.

Lemma validation_detail_names_witness :
  exists errs,
    parse_patient Examples.payload_too_young = inl errs /\ map fst errs = ["age"].
Proof.
  eexists. split; [reflexivity |].
  exact (proj1 (validation_detail_names Examples.payload_too_young _ eq_refl)).
Defined.

Lemma int_field_ok (name : string) (lo hi z : Z) :
  (lo <= z <= hi)%Z -> int_field name lo hi (Some z) = inr z.
Proof.
  intros Hz. unfold int_field.
  destruct (Z.ltb_spec z lo); [lia |]. destruct (Z.ltb_spec hi z); [lia | reflexivity].
Qed.

Lemma str_field_ok (name msg : string) (allowed : list string) (s : string) :
  str_in s allowed = true ->
  str_field name
    (fun s => if negb (str_in s allowed) then Raise (value_error msg) else Ok s)
    (Some s) = inr s.
Proof. intros Hs. unfold str_field. now rewrite Hs. Qed.

Lemma validated_record_holds
  (a : Z) (g d : string) (c : Z) (ds ci : string) (pt t tr : Z) :
  (18 <= a <= 80)%Z ->
  str_in g ["Male"; "Female"] = true ->
  str_in d ["Matched sibling"; "Matched unrelated"; "Haploidentical"; "Cord blood"] = true ->
  (0 <= c <= 10)%Z ->
  str_in ds ["AML"; "ALL"; "MDS"; "Lymphoma"; "Other"] = true ->
  str_in ci ["Myeloablative"; "Reduced-intensity"] = true ->
  (0 <= pt <= 1)%Z ->
  (1 <= t <= 5000)%Z ->
  (1 <= tr <= 365)%Z ->
  parse_patient
    (mkPayload (Some a) (Some g) (Some d) (Some c) (Some ds) (Some ci) (Some pt)
       (Some t) (Some tr)) =
  inr (mkPatient a g d c ds ci pt t tr).
Proof.
  intros R1 R2 R3 R4 R5 R6 R7 R8 R9.
  unfold parse_patient. cbv zeta. cbn [raw_age raw_gender raw_donor_type
    raw_comorbidity_score raw_disease_type raw_conditioning_intensity
    raw_prior_transplants raw_time_from_diagnosis_days raw_treatment_days].
  rewrite !int_field_ok by assumption.
  unfold validate_gender, validate_donor_type, validate_disease_type,
    validate_conditioning_intensity. cbv zeta.
  rewrite (str_field_ok "gender" "Gender must be Male or Female" _ _ R2).
  rewrite (str_field_ok "donor_type" _ _ _ R3).
  rewrite (str_field_ok "disease_type" _ _ _ R5).
  rewrite (str_field_ok "conditioning_intensity" _ _ _ R6).
  reflexivity.
Qed.

(** X9.  Validation lets a body through exactly when all nine fields are
    present and within their rules, and then changes nothing: the
    [PatientInput] carries the submitted values as they came.  So the
    handler may rely on the nine bounds, and re-validating an accepted
    record's own values gives the record back. *)
Theorem validated_record (p : Payload) (x : PatientInput) :
  parse_patient p = inr x <->
  p = mkPayload (Some (age x)) (Some (gender x)) (Some (donor_type x))
        (Some (comorbidity_score x)) (Some (disease_type x))
        (Some (conditioning_intensity x)) (Some (prior_transplants x))
        (Some (time_from_diagnosis_days x)) (Some (treatment_days x)) /\
  (18 <= age x <= 80)%Z /\
  str_in (gender x) ["Male"; "Female"] = true /\
  str_in (donor_type x)
    ["Matched sibling"; "Matched unrelated"; "Haploidentical"; "Cord blood"] = true /\
  (0 <= comorbidity_score x <= 10)%Z /\
  str_in (disease_type x) ["AML"; "ALL"; "MDS"; "Lymphoma"; "Other"] = true /\
  str_in (conditioning_intensity x) ["Myeloablative"; "Reduced-intensity"] = true /\
  (0 <= prior_transplants x <= 1)%Z /\
  (1 <= time_from_diagnosis_days x <= 5000)%Z /\
  (1 <= treatment_days x <= 365)%Z.
Proof.
  split.
  - intros Hparse.
    destruct (parse_patient_outcome p)
      as [(y & Hy & H1 & H2 & H3 & H4 & H5 & H6 & H7 & H8 & H9) | Herrs];
      [| congruence].
    assert (y = x) by congruence. subst y.
    apply int_field_inr in H1 as [E1 R1]. apply int_field_inr in H4 as [E4 R4].
    apply int_field_inr in H7 as [E7 R7]. apply int_field_inr in H8 as [E8 R8].
    apply int_field_inr in H9 as [E9 R9].
    apply (str_field_inr "gender" "Gender must be Male or Female") in H2 as [E2 R2].
    apply (str_field_inr "donor_type"
             "Donor type must be one of: ['Matched sibling', 'Matched unrelated', 'Haploidentical', 'Cord blood']")
      in H3 as [E3 R3].
    apply (str_field_inr "disease_type"
             "Disease type must be one of: ['AML', 'ALL', 'MDS', 'Lymphoma', 'Other']")
      in H5 as [E5 R5].
    apply (str_field_inr "conditioning_intensity"
             "Conditioning intensity must be one of: ['Myeloablative', 'Reduced-intensity']")
      in H6 as [E6 R6].
    destruct p; cbn in E1, E2, E3, E4, E5, E6, E7, E8, E9. subst.
    repeat split; assumption || lia.
  - intros (-> & R1 & R2 & R3 & R4 & R5 & R6 & R7 & R8 & R9).
    destruct x as [a g d c ds ci pt t tr]. cbn [age gender donor_type comorbidity_score
      disease_type conditioning_intensity prior_transplants time_from_diagnosis_days
      treatment_days] in *.
    now apply validated_record_holds.
Qed.

(** ** The form client against the schema *)

Lemma returns_range (w : Frontend.NumberInput) (v : Z) :
  Frontend.returns w v = true ->
  (Frontend.min_value w <= v <= Frontend.max_value w)%Z.
Proof. unfold Frontend.returns. intros H. apply andb_prop in H as [H1 H2]. lia. Qed.

(** X10.  The bounds and option lists of the form's widgets lie within
    the schema of the backend: whatever the widgets return, the body the
    form sends validates to a record holding the same values, so
    [POST /predict] never answers it 422 and the page never takes its
    invalid-input branch. *)
Theorem form_body_validates (f : Frontend.Form) (st : ServerState) (client : string)
  (now : Z) :
  Frontend.widgets_return f = true ->
  parse_patient (Frontend.patient_data f) =
    inr (mkPatient (Frontend.age f) (Frontend.gender f) (Frontend.donor_type f)
           (Frontend.comorbidity_score f) (Frontend.disease_type f)
           (Frontend.conditioning_intensity f) (Frontend.prior_transplants f)
           (Frontend.time_from_diagnosis_days f) (Frontend.treatment_days f)) /\
  status_code (snd (post_predict st (mkRequest client now (Frontend.patient_data f))))
    <> 422%Z /\
  forall detail,
    Frontend.show_response
      (snd (post_predict st (mkRequest client now (Frontend.patient_data f))))
    <> Frontend.InvalidInput detail.
Proof.
  intros Hw. unfold Frontend.widgets_return in Hw.
  repeat (apply andb_prop in Hw as [Hw ?]).
  repeat match goal with
         | H : Frontend.returns _ _ = true |- _ => apply returns_range in H
         end.
  assert (Hprior : (0 <= Frontend.prior_transplants f <= 1)%Z).
  { unfold Frontend.offers_int, Frontend.prior_transplants_options in *.
    cbn [existsb] in *.
    destruct (Z.eqb_spec (Frontend.prior_transplants f) 0); [lia |].
    destruct (Z.eqb_spec (Frontend.prior_transplants f) 1); [lia | discriminate]. }
  assert (Hparse : parse_patient (Frontend.patient_data f) =
            inr (mkPatient (Frontend.age f) (Frontend.gender f) (Frontend.donor_type f)
                   (Frontend.comorbidity_score f) (Frontend.disease_type f)
                   (Frontend.conditioning_intensity f) (Frontend.prior_transplants f)
                   (Frontend.time_from_diagnosis_days f) (Frontend.treatment_days f))).
  { apply validated_record_holds; try assumption.
    match goal with
    | Ha : (_ <=? Frontend.age f)%Z = true, Hb : (Frontend.age f <=? _)%Z = true |- _ =>
        apply Z.leb_le in Ha, Hb;
        change (18 <= Frontend.age f)%Z in Ha; change (Frontend.age f <= 80)%Z in Hb; lia
    end. }
  split; [exact Hparse |].
  unfold post_predict. cbn [body_json]. rewrite Hparse.
  destruct (limiter_hit _ _ _) as [storage admitted].
  destruct admitted.
  - destruct (predict_survival_counters (set_limiter st storage)
                (arrival (mkRequest client now (Frontend.patient_data f)))
                (mkPatient (Frontend.age f) (Frontend.gender f) (Frontend.donor_type f)
                   (Frontend.comorbidity_score f) (Frontend.disease_type f)
                   (Frontend.conditioning_intensity f) (Frontend.prior_transplants f)
                   (Frontend.time_from_diagnosis_days f) (Frontend.treatment_days f)))
      as [(body & -> & _) | (detail & -> & _)]; split; cbn; discriminate.
  - split; cbn; discriminate.
Qed.

Lemma form_body_validates_witness :
  status_code
    (snd (post_predict Examples.started
            (mkRequest "10.0.0.7" 0 (Frontend.patient_data Frontend.initial_form))))
  <> 422%Z.
Proof.
  apply (form_body_validates Frontend.initial_form Examples.started "10.0.0.7" 0).
  reflexivity.
Defined.

(** X11.  What the page shows for the explanation of a 200 response: a
    bar chart of the returned pairs whenever the dictionary is not
    empty, and the "not available" notice only for an empty dictionary.
    The fallback the backend returns on failure is a non-empty
    dictionary, so it is charted, with ["note"] as its only feature. *)
Theorem fallback_is_charted (st : ServerState) (now : Z) (patient : PatientInput)
  (p : float) :
  model_predict_proba (model st) patient = Ok p ->
  let shown := Frontend.show_response (snd (predict_survival st now patient)) in
  let outcome := if gt p half then "Likely to survive" else "At risk" in
  (forall e, feature_importance_body (model st) patient = Raise e ->
     shown = Frontend.PredictionResults outcome (Frontend.BarChart fallback_importance)) /\
  (forall d, feature_importance_body (model st) patient = Ok d ->
     shown = Frontend.PredictionResults outcome
               (match d with
                | [] => Frontend.InfoNotAvailable
                | _ :: _ => Frontend.BarChart (float_dict d)
                end)).
Proof.
  intros Hp. cbv zeta.
  unfold predict_survival, predict_body, get_feature_importance.
  rewrite Hp. cbn [bind].
  split.
  - intros e He. rewrite He. reflexivity.
  - intros d Hd. rewrite Hd. destruct d; reflexivity.
Qed.

Lemma fallback_is_charted_witness :
  Frontend.show_response (snd (predict_survival Examples.opaque 0 Examples.patient)) =
  Frontend.PredictionResults "At risk" (Frontend.BarChart fallback_importance).
Proof.
  exact (proj1 (fallback_is_charted Examples.opaque 0 Examples.patient Examples.p_075
                  eq_refl) (key_error "xgb") eq_refl).
Defined.

(** ** The synthetic data *)

Lemma draws_length {A : Type} (f : nat -> A) (n : nat) : List.length (Trainer.draws f n) = n.
Proof. unfold Trainer.draws. now rewrite length_map, length_seq. Qed.

Lemma draws_nth_error {A : Type} (f : nat -> A) (n i : nat) :
  i < n -> nth_error (Trainer.draws f n) i = Some (f i).
Proof.
  intros Hi. unfold Trainer.draws.
  rewrite nth_error_map, nth_error_seq.
  destruct (Nat.ltb_spec i n); [reflexivity | lia].
Qed.

Lemma draws_Forall {A : Type} (P : A -> Prop) (f : nat -> A) (n : nat) :
  (forall i, P (f i)) -> Forall P (Trainer.draws f n).
Proof.
  intros H. unfold Trainer.draws. apply Forall_forall. intros x Hx.
  apply in_map_iff in Hx as (i & <- & _). apply H.
Qed.

Lemma mask_cells_length (mask : list bool) (cells : list Trainer.Cell) :
  List.length (Trainer.mask_cells mask cells) = List.length cells.
Proof.
  revert cells. induction mask as [| m mask IH]; intros [| c cells];
    cbn [Trainer.mask_cells List.length]; try reflexivity.
  now rewrite IH.
Qed.

Lemma mask_cells_Forall (P : Trainer.Cell -> Prop) (mask : list bool)
  (cells : list Trainer.Cell) :
  Forall P cells -> Forall (fun c => P c \/ c = Trainer.NaN) (Trainer.mask_cells mask cells).
Proof.
  revert cells. induction mask as [| m mask IH]; intros cells Hc.
  - destruct cells; cbn [Trainer.mask_cells];
      (eapply Forall_impl; [| exact Hc]); intros c' Hp; now left.
  - destruct cells as [| c cells]; cbn [Trainer.mask_cells]; [constructor |].
    inversion Hc as [| ? ? Hp Hrest]; subst. constructor.
    + destruct m; [now right | now left].
    + now apply IH.
Qed.

Lemma mask_cells_nth_error (mask : list bool) (cells : list Trainer.Cell) (i : nat)
  (m : bool) (c : Trainer.Cell) :
  nth_error mask i = Some m -> nth_error cells i = Some c ->
  nth_error (Trainer.mask_cells mask cells) i = Some (if m then Trainer.NaN else c).
Proof.
  revert cells i. induction mask as [| m0 mask IH]; intros cells i Hm Hc.
  - destruct i; discriminate.
  - destruct cells as [| c0 cells]; [destruct i; discriminate |].
    destruct i as [| i]; cbn [nth_error Trainer.mask_cells] in *.
    + injection Hm as ->. injection Hc as ->. reflexivity.
    + now apply IH.
Qed.

(** The frame the generator returns, column by column. *)
Lemma generate_synthetic_hct_data_columns (exp : Q -> Q) (n : nat)
  (rng : Trainer.RandomState) :
  let rows := Trainer.draws (Trainer.row exp rng) n in
  let mask := fun col =>
    Trainer.draws
      (fun i => negb (Qle_bool (3 # 100) (Trainer.rand_missing rng col i))) n in
  Trainer.generate_synthetic_hct_data exp n rng =
  [("age", map (fun r => Trainer.Num (Trainer.age r)) rows);
   ("gender", map (fun r => Trainer.Str (Trainer.gender r)) rows);
   ("donor_type",
    Trainer.mask_cells (mask "donor_type")
      (map (fun r => Trainer.Str (Trainer.donor_type r)) rows));
   ("comorbidity_score",
    Trainer.mask_cells (mask "comorbidity_score")
      (map (fun r => Trainer.Num (Trainer.comorbidity_score r)) rows));
   ("disease_type", map (fun r => Trainer.Str (Trainer.disease_type r)) rows);
   ("conditioning_intensity",
    Trainer.mask_cells (mask "conditioning_intensity")
      (map (fun r => Trainer.Str (Trainer.conditioning_intensity r)) rows));
   ("prior_transplants", map (fun r => Trainer.Num (Trainer.prior_transplants r)) rows);
   ("time_from_diagnosis_days",
    map (fun r => Trainer.Num (Trainer.time_from_diagnosis_days r)) rows);
   ("treatment_days", map (fun r => Trainer.Num (Trainer.treatment_days r)) rows);
   ("survival", map (fun r => Trainer.Num (Trainer.survival r)) rows)].
Proof. reflexivity. Qed.

Lemma dict_get_In {V : Type} (d : list (string * V)) (k : string) (v : V) :
  dict_get d k = Some v -> In (k, v) d.
Proof.
  induction d as [| [k' v'] d IH]; cbn [dict_get In]; [discriminate |].
  destruct (String.eqb_spec k' k) as [-> | Hne].
  - intros H. injection H as ->. now left.
  - intros H. right. now apply IH.
Qed.

(** X12.  For every size [n] and every sequence of draws the generated
    frame has the ten named columns, in this order, and every column has
    exactly [n] cells. *)
Theorem generated_frame_shape (exp : Q -> Q) (n : nat) (rng : Trainer.RandomState) :
  let df := Trainer.generate_synthetic_hct_data exp n rng in
  Trainer.columns df =
    ["age"; "gender"; "donor_type"; "comorbidity_score"; "disease_type";
     "conditioning_intensity"; "prior_transplants"; "time_from_diagnosis_days";
     "treatment_days"; "survival"] /\
  (forall col, In col (Trainer.columns df) -> exists cells, Trainer.column df col = Some cells) /\
  (forall col cells, Trainer.column df col = Some cells -> List.length cells = n).
Proof.
  cbv zeta. rewrite generate_synthetic_hct_data_columns. cbv zeta.
  split; [reflexivity |]. split.
  - intros col Hin. cbn in Hin.
    repeat (destruct Hin as [<- | Hin]; [eexists; reflexivity |]). destruct Hin.
  - intros col cells Hc. unfold Trainer.column in Hc. apply dict_get_In in Hc.
    cbn [In] in Hc.
    repeat (destruct Hc as [Hc | Hc];
            [injection Hc as _ <-;
             rewrite ?mask_cells_length, length_map; apply draws_length |]).
    destruct Hc.
Qed.

Lemma astype_int_clip_age (x : Q) :
  (18 <= Trainer.astype_int (Trainer.clipQ 18 80 x) <= 80)%Z.
Proof.
  unfold Trainer.clipQ.
  destruct (Qle_bool x 18) eqn:Hlo; [vm_compute; split; discriminate |].
  destruct (Qle_bool 80 x) eqn:Hhi; [vm_compute; split; discriminate |].
  assert (Hgt : (18 < x)%Q).
  { apply Qnot_le_lt. intros H. apply Qle_bool_iff in H. congruence. }
  assert (Hlt : (x < 80)%Q).
  { apply Qnot_le_lt. intros H. apply Qle_bool_iff in H. congruence. }
  unfold Trainer.astype_int.
  assert (Hpos : Qle_bool 0 x = true).
  { apply Qle_bool_iff. apply Qlt_le_weak.
    apply Qlt_trans with (y := 18%Q); [reflexivity | exact Hgt]. }
  rewrite Hpos. split.
  - change 18%Z with (Qfloor 18). apply Qfloor_resp_le. now apply Qlt_le_weak.
  - change 80%Z with (Qfloor 80). apply Qfloor_resp_le. now apply Qlt_le_weak.
Qed.

Lemma clipZ_range (lo hi x : Z) :
  (lo <= hi)%Z -> (lo <= Trainer.clipZ lo hi x <= hi)%Z.
Proof. unfold Trainer.clipZ. lia. Qed.

Lemma choice_In (options : list string) (pick : nat) :
  options <> [] -> In (Trainer.choice options pick) options.
Proof.
  intros Hne. unfold Trainer.choice. apply nth_In.
  apply Nat.mod_upper_bound. destruct options; [contradiction | discriminate].
Qed.

Lemma bool_to_Z_range (b : bool) : (0 <= Trainer.bool_to_Z b <= 1)%Z.
Proof. destruct b; cbn; lia. Qed.

(** The ranges of one generated row. *)
Lemma row_ranges (exp : Q -> Q) (rng : Trainer.RandomState) (i : nat) :
  let r := Trainer.row exp rng i in
  (18 <= Trainer.age r <= 80)%Z /\
  In (Trainer.gender r) ["Male"; "Female"] /\
  In (Trainer.donor_type r)
     ["Matched sibling"; "Matched unrelated"; "Haploidentical"; "Cord blood"] /\
  Trainer.comorbidity_score r = Z.of_nat (Trainer.poisson_comorbidity rng i) /\
  In (Trainer.disease_type r) ["AML"; "ALL"; "MDS"; "Lymphoma"; "Other"] /\
  In (Trainer.conditioning_intensity r) ["Myeloablative"; "Reduced-intensity"] /\
  (0 <= Trainer.prior_transplants r <= 1)%Z /\
  (10 <= Trainer.time_from_diagnosis_days r <= 5000)%Z /\
  (7 <= Trainer.treatment_days r <= 365)%Z /\
  (0 <= Trainer.survival r <= 1)%Z.
Proof.
  cbv zeta. unfold Trainer.row. cbv zeta.
  cbn [Trainer.age Trainer.gender Trainer.donor_type Trainer.comorbidity_score
       Trainer.disease_type Trainer.conditioning_intensity Trainer.prior_transplants
       Trainer.time_from_diagnosis_days Trainer.treatment_days Trainer.survival].
  split; [apply astype_int_clip_age |].
  split; [apply choice_In; discriminate |].
  split; [apply choice_In; discriminate |].
  split; [reflexivity |].
  split; [apply choice_In; discriminate |].
  split; [apply choice_In; discriminate |].
  split; [apply bool_to_Z_range |].
  split; [apply clipZ_range; lia |].
  split; [apply clipZ_range; lia |].
  apply bool_to_Z_range.
Qed.

Lemma rows_Forall (exp : Q -> Q) (rng : Trainer.RandomState) (n : nat)
  (f : Trainer.Row -> Trainer.Cell) (P : Trainer.Cell -> Prop) :
  (forall i, P (f (Trainer.row exp rng i))) ->
  Forall P (map f (Trainer.draws (Trainer.row exp rng) n)).
Proof.
  intros H. apply Forall_forall. intros c Hc.
  apply in_map_iff in Hc as (r & <- & Hr).
  unfold Trainer.draws in Hr. apply in_map_iff in Hr as (i & <- & _). apply H.
Qed.

(** X13.  Whatever the draws, the generated columns stay in their
    ranges: [age] in 18..80, [time_from_diagnosis_days] in 10..5000,
    [treatment_days] in 7..365, [prior_transplants] and [survival] in
    0..1, every categorical cell one of the options of its [choice] call,
    and [comorbidity_score] a non-negative integer with no upper bound
    applied; in the three columns that receive missing values a cell may
    instead be NaN. *)
Theorem generated_value_ranges (exp : Q -> Q) (n : nat) (rng : Trainer.RandomState) :
  let df := Trainer.generate_synthetic_hct_data exp n rng in
  let within (lo hi : Z) (c : Trainer.Cell) :=
    exists z, c = Trainer.Num z /\ (lo <= z <= hi)%Z in
  let among (options : list string) (c : Trainer.Cell) :=
    exists s, c = Trainer.Str s /\ In s options in
  (exists cells, Trainer.column df "age" = Some cells /\ Forall (within 18%Z 80%Z) cells) /\
  (exists cells, Trainer.column df "gender" = Some cells /\
                 Forall (among ["Male"; "Female"]) cells) /\
  (exists cells, Trainer.column df "donor_type" = Some cells /\
     Forall (fun c =>
               among ["Matched sibling"; "Matched unrelated"; "Haploidentical";
                      "Cord blood"] c \/ c = Trainer.NaN) cells) /\
  (exists cells, Trainer.column df "comorbidity_score" = Some cells /\
     Forall (fun c => (exists z, c = Trainer.Num z /\ (0 <= z)%Z) \/ c = Trainer.NaN)
            cells) /\
  (exists cells, Trainer.column df "disease_type" = Some cells /\
                 Forall (among ["AML"; "ALL"; "MDS"; "Lymphoma"; "Other"]) cells) /\
  (exists cells, Trainer.column df "conditioning_intensity" = Some cells /\
     Forall (fun c => among ["Myeloablative"; "Reduced-intensity"] c \/ c = Trainer.NaN)
            cells) /\
  (exists cells, Trainer.column df "prior_transplants" = Some cells /\
                 Forall (within 0%Z 1%Z) cells) /\
  (exists cells, Trainer.column df "time_from_diagnosis_days" = Some cells /\
                 Forall (within 10%Z 5000%Z) cells) /\
  (exists cells, Trainer.column df "treatment_days" = Some cells /\
                 Forall (within 7%Z 365%Z) cells) /\
  (exists cells, Trainer.column df "survival" = Some cells /\ Forall (within 0%Z 1%Z) cells).
Proof.
  cbv zeta. rewrite generate_synthetic_hct_data_columns. cbv zeta.
  repeat split; (eexists; split; [reflexivity |]);
    try apply mask_cells_Forall; apply rows_Forall; intros i;
    pose proof (row_ranges exp rng i) as R; cbv zeta in R;
    destruct R as (R1 & R2 & R3 & R4 & R5 & R6 & R7 & R8 & R9 & R10);
    eexists; (split; [reflexivity |]); try assumption.
  rewrite R4. lia.
Qed.

(** X14.  Missing values are injected into [donor_type],
    [comorbidity_score] and [conditioning_intensity] only: no other
    column ever holds NaN, and in each of the three a cell is NaN exactly
    when that column's own mask draw for the row is below 0.03. *)
Theorem missing_values_confined (exp : Q -> Q) (n : nat) (rng : Trainer.RandomState) :
  let df := Trainer.generate_synthetic_hct_data exp n rng in
  (forall col cells,
      Trainer.column df col = Some cells ->
      ~ In col Trainer.missing_columns -> ~ In Trainer.NaN cells) /\
  (forall col cells i,
      In col Trainer.missing_columns ->
      Trainer.column df col = Some cells ->
      i < n ->
      (nth_error cells i = Some Trainer.NaN <->
       (Trainer.rand_missing rng col i < 3 # 100)%Q)).
Proof.
  cbv zeta. rewrite generate_synthetic_hct_data_columns. cbv zeta. split.
  - intros col cells Hc Hnot Hnan.
    unfold Trainer.column in Hc. apply dict_get_In in Hc. cbn [In] in Hc.
    repeat (destruct Hc as [Hc | Hc];
            [injection Hc as <- <-;
             try (exfalso; apply Hnot; cbn; tauto);
             try (apply in_map_iff in Hnan as (r & Hr & _); discriminate Hr) |]).
    destruct Hc.
  - intros col cells i Hin Hc Hi.
    assert (Hmask : forall (f : Trainer.Row -> Trainer.Cell),
               (forall r, f r <> Trainer.NaN) ->
               nth_error
                 (Trainer.mask_cells
                    (Trainer.draws
                       (fun i => negb (Qle_bool (3 # 100) (Trainer.rand_missing rng col i)))
                       n)
                    (map f (Trainer.draws (Trainer.row exp rng) n))) i
               = Some Trainer.NaN <->
               (Trainer.rand_missing rng col i < 3 # 100)%Q).
    { intros f Hf.
      rewrite (mask_cells_nth_error _ _ i
                 (negb (Qle_bool (3 # 100) (Trainer.rand_missing rng col i)))
                 (f (Trainer.row exp rng i)));
        [| exact (draws_nth_error
                    (fun i => negb (Qle_bool (3 # 100) (Trainer.rand_missing rng col i)))
                    n i Hi)
         | rewrite nth_error_map, draws_nth_error by exact Hi; reflexivity].
      destruct (Qle_bool (3 # 100) (Trainer.rand_missing rng col i)) eqn:Hle;
        cbn [negb]; split; intros H.
      - injection H as H. now apply Hf in H.
      - apply Qle_bool_iff in Hle. now apply Qlt_not_le in H.
      - apply Qnot_le_lt. intros Hq. apply Qle_bool_iff in Hq. congruence.
      - reflexivity. }
    cbn in Hin. destruct Hin as [<- | [<- | [<- | []]]];
      cbn in Hc; injection Hc as <-; apply Hmask; intros r; discriminate.
Qed.

Lemma In_str_in (s : string) (l : list string) : In s l -> str_in s l = true.
Proof.
  intros H. unfold str_in. apply existsb_exists. exists s.
  split; [exact H | apply String.eqb_refl].
Qed.

(** X15.  A generated row, submitted as a request body, passes the
    backend's validation exactly when its Poisson draw for
    [comorbidity_score] is at most 10: every other generated value lies
    within the request schema, whatever the draws. *)
Theorem generated_row_against_schema (exp : Q -> Q) (rng : Trainer.RandomState) (i : nat) :
  let r := Trainer.row exp rng i in
  parse_patient
    (mkPayload (Some (Trainer.age r)) (Some (Trainer.gender r))
       (Some (Trainer.donor_type r)) (Some (Trainer.comorbidity_score r))
       (Some (Trainer.disease_type r)) (Some (Trainer.conditioning_intensity r))
       (Some (Trainer.prior_transplants r)) (Some (Trainer.time_from_diagnosis_days r))
       (Some (Trainer.treatment_days r))) =
  inr (mkPatient (Trainer.age r) (Trainer.gender r) (Trainer.donor_type r)
         (Trainer.comorbidity_score r) (Trainer.disease_type r)
         (Trainer.conditioning_intensity r) (Trainer.prior_transplants r)
         (Trainer.time_from_diagnosis_days r) (Trainer.treatment_days r))
  <-> Trainer.poisson_comorbidity rng i <= 10.
Proof.
  cbv zeta.
  pose proof (row_ranges exp rng i) as R. cbv zeta in R.
  destruct R as (R1 & R2 & R3 & R4 & R5 & R6 & R7 & R8 & R9 & R10).
  split.
  - intros Hparse. apply validated_record in Hparse.
    destruct Hparse as (_ & _ & _ & _ & Hc & _).
    cbn [comorbidity_score] in Hc. rewrite R4 in Hc. lia.
  - intros Hle. apply validated_record_holds;
      try (apply In_str_in; assumption); try assumption; lia.
Qed.

(** ** The exported artifacts *)

(** X16.  Whenever [train_and_export_model] returns, whatever the data
    and the path, the metadata it returns lists as [feature_names] the
    nine fields of a request record, in the order of [patient.dict()],
    so the one-row frame the server builds has the columns the pipeline
    was fitted on; the target is not among them; the four categorical and
    five numeric names partition them; and the returned pipeline is the
    fitted preprocessor over exactly these two groups. *)
Theorem exported_metadata
  (exp : Q -> Q) (o : Trainer.Outcomes) (fs : FileSystem) (output_path : string)
  (rng : Trainer.RandomState) (pipeline : Pipeline) (info : FeatureInfo)
  (x : PatientInput) :
  snd (Trainer.train_and_export_model exp o fs output_path rng) = Ok (pipeline, info) ->
  feature_names info = keys (patient_dict x) /\
  categorical_features info =
    ["gender"; "donor_type"; "disease_type"; "conditioning_intensity"] /\
  numeric_features info =
    ["age"; "comorbidity_score"; "prior_transplants"; "time_from_diagnosis_days";
     "treatment_days"] /\
  ~ In Trainer.target (feature_names info) /\
  Permutation (categorical_features info ++ numeric_features info) (feature_names info) /\
  exists l,
    Trainer.fit_outcome o (Trainer.generate_synthetic_hct_data exp 3000 rng) = Ok l /\
    pipeline =
      Trainer.fit_pipeline
        (Trainer.make_preprocessor (categorical_features info) (numeric_features info)) l.
Proof.
  intros Hret.
  destruct (export_returns exp o fs output_path rng pipeline info Hret)
    as ((l & Hfit & Hpipe) & Hinfo & _).
  cbv zeta in Hpipe, Hinfo.
  rewrite generate_synthetic_hct_data_columns in Hpipe, Hinfo. cbv zeta in Hpipe, Hinfo.
  unfold Trainer.columns in Hpipe, Hinfo. cbn [map fst] in Hpipe, Hinfo.
  subst info. cbn [feature_names categorical_features numeric_features].
  split; [reflexivity |]. split; [reflexivity |]. split; [reflexivity |].
  split; [| split].
  - vm_compute. intuition discriminate.
  - apply NoDup_Permutation.
    + apply all_distinct_NoDup. reflexivity.
    + apply all_distinct_NoDup. reflexivity.
    + intros c. vm_compute. tauto.
  - exists l. split; [exact Hfit | exact Hpipe].
Qed.

Lemma exported_metadata_witness :
  snd (Trainer.train_and_export_model (fun q => q) Examples.outcomes (fun _ => None)
         "model/model.pkl" Examples.trainer_rng) =
    Ok (Examples.pipeline, Examples.feature_info) /\
  feature_names Examples.feature_info = keys (patient_dict Examples.patient).
Proof.
  split; [reflexivity |].
  exact (proj1 (exported_metadata (fun q => q) Examples.outcomes (fun _ => None)
                  "model/model.pkl" Examples.trainer_rng Examples.pipeline
                  Examples.feature_info Examples.patient eq_refl)).
Defined.

(** X17.  Whenever the export returns and the metadata path is another
    file than the output path (as for a path ending in [.pkl]), a server
    started on the exported files loads both: its model is the returned
    pipeline, its metadata the returned dictionary, and a record the
    pipeline accepts is answered 200 with the pipeline's probability. *)
Theorem export_then_serve
  (exp : Q -> Q) (o : Trainer.Outcomes) (fs : FileSystem)
  (output_path base_dir : string) (rng : Trainer.RandomState)
  (pipeline : Pipeline) (info : FeatureInfo) (st : ServerState)
  (now : Z) (patient : PatientInput) (q : float) :
  snd (Trainer.train_and_export_model exp o fs output_path rng) = Ok (pipeline, info) ->
  Trainer.info_path_of output_path <> output_path ->
  Trainer.same_file o output_path (Trainer.info_path_of output_path) = false ->
  predict_proba pipeline patient = Ok q ->
  let files := fst (Trainer.train_and_export_model exp o fs output_path rng) in
  let st' := fst (load_model files (Some output_path) base_dir st) in
  snd (load_model files (Some output_path) base_dir st) = Ok tt /\
  model st' = Some (PickledPipeline pipeline) /\
  feature_info st' = Some (PickledInfo info) /\
  exists st'' body,
    predict_survival st' now patient = (st'', Http200 body) /\
    probability body = q.
Proof.
  intros Hret Hne Hother Hq. cbv zeta.
  destruct (export_returns exp o fs output_path rng pipeline info Hret)
    as (_ & _ & _ & _ & Hfiles).
  rewrite Hfiles.
  unfold load_model, model_path_of, joblib_load.
  change (Backend.info_path_of output_path) with (Trainer.info_path_of output_path).
  rewrite !String.eqb_refl, Hother. cbn [orb].
  destruct (String.eqb_spec output_path (Trainer.info_path_of output_path)) as [E | _];
    [congruence |].
  cbn [fst snd]. repeat split.
  match goal with
  | |- exists st'' body, predict_survival ?s _ _ = _ /\ _ =>
      destruct (predict_survival_ok s now patient q) as (st'' & body & Hrun & Hp & _);
      [exact Hq | exists st'', body; split; assumption]
  end.
Qed.

Lemma export_then_serve_witness :
  model
    (fst (load_model
            (fst (Trainer.train_and_export_model (fun q => q) Examples.outcomes
                    (fun _ => None) "model/model.pkl" Examples.trainer_rng))
            (Some "model/model.pkl") "/app" Examples.not_loaded)) =
  Some (PickledPipeline Examples.pipeline).
Proof.
  apply (export_then_serve (fun q => q) Examples.outcomes (fun _ => None)
           "model/model.pkl" "/app" Examples.trainer_rng Examples.pipeline
           Examples.feature_info Examples.not_loaded 0
           Examples.patient Examples.p_075).
  - reflexivity.
  - vm_compute. discriminate.
  - reflexivity.
  - reflexivity.
Defined.

(** X18.  When the output path holds no [.pkl], the metadata path is the
    output path itself: whenever such an export returns, its second dump
    has overwritten the pipeline, the file holds the metadata dictionary,
    and a server started on it loads that dictionary as its model without
    error; a validated prediction request is then answered 500 with the
    text of the [AttributeError] on a [dict] when the limiter admits it,
    and 429 when it does not: never 200. *)
Theorem export_without_pkl_suffix
  (exp : Q -> Q) (o : Trainer.Outcomes) (fs : FileSystem)
  (output_path base_dir : string) (rng : Trainer.RandomState)
  (pipeline : Pipeline) (info : FeatureInfo) (st : ServerState)
  (req : Request) (patient : PatientInput) :
  Py.contains ".pkl" output_path = false ->
  snd (Trainer.train_and_export_model exp o fs output_path rng) = Ok (pipeline, info) ->
  parse_patient (body_json req) = inr patient ->
  let files := fst (Trainer.train_and_export_model exp o fs output_path rng) in
  let st' := fst (load_model files (Some output_path) base_dir st) in
  let admitted := snd (limiter_hit (limiter st') (remote_address req) (arrival req)) in
  Trainer.info_path_of output_path = output_path /\
  files output_path = Some (PickledInfo info) /\
  snd (load_model files (Some output_path) base_dir st) = Ok tt /\
  model st' = Some (PickledInfo info) /\
  snd (post_predict st' req) =
    (if admitted
     then Http500 "'dict' object has no attribute 'predict_proba'"
     else Http429) /\
  error_count (fst (post_predict st' req)) =
    (if admitted then S (error_count st) else error_count st).
Proof.
  intros Hno Hret Hparse. cbv zeta.
  assert (Hpath : Trainer.info_path_of output_path = output_path).
  { unfold Trainer.info_path_of. now apply replace_no_occurrence. }
  split; [exact Hpath |].
  destruct (export_returns exp o fs output_path rng pipeline info Hret)
    as (_ & _ & _ & _ & Hfiles).
  rewrite Hfiles, Hpath.
  unfold load_model, model_path_of, joblib_load.
  change (Backend.info_path_of output_path) with (Trainer.info_path_of output_path).
  rewrite Hpath, !String.eqb_refl. cbn [orb fst snd].
  split; [reflexivity |]. split; [reflexivity |]. split; [reflexivity |].
  match goal with
  | |- context [post_predict ?s req] =>
      destruct (post_predict_when_model_raises s req patient
                  (attribute_error "dict" "predict_proba") Hparse eq_refl)
        as (Hr & He & _)
  end.
  cbv zeta in Hr, He. split; [exact Hr | exact He].
Qed.

Lemma export_without_pkl_suffix_witness :
  snd (post_predict
         (fst (load_model
                 (fst (Trainer.train_and_export_model (fun q => q) Examples.outcomes
                         (fun _ => None) "model/model.joblib" Examples.trainer_rng))
                 (Some "model/model.joblib") "/app" Examples.not_loaded))
         (Examples.request_at 0 Examples.payload)) =
  Http500 "'dict' object has no attribute 'predict_proba'".
Proof.
  exact (proj1 (proj2 (proj2 (proj2 (proj2
           (export_without_pkl_suffix (fun q => q) Examples.outcomes (fun _ => None)
              "model/model.joblib" "/app" Examples.trainer_rng Examples.pipeline
              Examples.feature_info Examples.not_loaded
              (Examples.request_at 0 Examples.payload) Examples.patient
              eq_refl eq_refl eq_refl)))))).
Defined.

Lemma dirname_without_slash (p : string) :
  Py.contains "/" p = false -> Py.dirname p = "".
Proof.
  intros H. unfold Py.dirname.
  assert (Hhead : Py.head_to_last_slash p = "").
  { destruct p as [| c p]; [reflexivity |]. cbn [Py.head_to_last_slash]. now rewrite H. }
  rewrite Hhead. reflexivity.
Qed.

(** X22.  Three ways the exporter ends in an exception after it has
    fitted the pipeline.  For an output path without a slash
    [os.makedirs] is given the empty name and raises [FileNotFoundError],
    and for an output path ending with a slash, the directory made, the
    first dump raises [IsADirectoryError]: in both cases the files are
    left as they were.  And when the second dump is refused, as it is
    when the directory of the metadata path does not exist, the export
    ends with that exception after the pipeline has been written. *)
Theorem export_refused_paths
  (exp : Q -> Q) (o : Trainer.Outcomes) (fs : FileSystem) (output_path : string)
  (rng : Trainer.RandomState) (l : Trainer.Learned) (e : Exception) :
  Trainer.fit_outcome o (Trainer.generate_synthetic_hct_data exp 3000 rng) = Ok l ->
  (Py.contains "/" output_path = false ->
   Trainer.train_and_export_model exp o fs output_path rng =
     (fs, Raise (mkExc "FileNotFoundError" "[Errno 2] No such file or directory: ''"))) /\
  (Py.endswith output_path "/" = true ->
   Trainer.makedirs o (Py.dirname output_path) = Ok tt ->
   Trainer.train_and_export_model exp o fs output_path rng =
     (fs, Raise (mkExc "IsADirectoryError"
                   ("[Errno 21] Is a directory: '" ++ output_path ++ "'")%string))) /\
  (Py.endswith output_path "/" = false ->
   Py.endswith (Trainer.info_path_of output_path) "/" = false ->
   Trainer.makedirs o (Py.dirname output_path) = Ok tt ->
   Trainer.dump_outcome o 0 output_path = Ok tt ->
   Trainer.dump_outcome o 1 (Trainer.info_path_of output_path) = Raise e ->
   snd (Trainer.train_and_export_model exp o fs output_path rng) = Raise e /\
   exists pipeline,
     fst (Trainer.train_and_export_model exp o fs output_path rng) output_path =
       Some (PickledPipeline pipeline)).
Proof.
  intros Hfit. split; [| split].
  - intros Hno. unfold Trainer.train_and_export_model. cbv zeta. rewrite Hfit.
    rewrite (dirname_without_slash _ Hno). reflexivity.
  - intros Hslash Hdir. unfold Trainer.train_and_export_model. cbv zeta.
    rewrite Hfit, Hdir. unfold Trainer.joblib_dump. rewrite Hslash. reflexivity.
  - intros Hslash Hslash' Hdir Hd0 Hd1. unfold Trainer.train_and_export_model. cbv zeta.
    rewrite Hfit, Hdir. unfold Trainer.joblib_dump.
    rewrite Hslash, Hd0, Hslash', Hd1. cbn [fst snd].
    split; [reflexivity |]. eexists. now rewrite String.eqb_refl.
Qed.

Lemma export_refused_paths_witness :
  Trainer.train_and_export_model (fun q => q) Examples.outcomes (fun _ => None)
    "model.pkl" Examples.trainer_rng =
    (fun _ => None,
     Raise (mkExc "FileNotFoundError" "[Errno 2] No such file or directory: ''")) /\
  Trainer.train_and_export_model (fun q => q) Examples.outcomes (fun _ => None)
    "model/" Examples.trainer_rng =
    (fun _ => None,
     Raise (mkExc "IsADirectoryError" "[Errno 21] Is a directory: 'model/'")) /\
  snd (Trainer.train_and_export_model (fun q => q)
         Examples.outcomes_without_info_directory (fun _ => None)
         "a.pkl/m.pkl" Examples.trainer_rng) =
    Raise (mkExc "FileNotFoundError"
             "[Errno 2] No such file or directory: 'a_info.pkl/m_info.pkl'").
Proof.
  split; [| split].
  - exact (proj1 (export_refused_paths (fun q => q) Examples.outcomes (fun _ => None)
                    "model.pkl" Examples.trainer_rng Examples.learned
                    (mkExc "" "") eq_refl) eq_refl).
  - exact (proj1 (proj2 (export_refused_paths (fun q => q) Examples.outcomes
                           (fun _ => None) "model/" Examples.trainer_rng
                           Examples.learned (mkExc "" "") eq_refl))
             eq_refl eq_refl).
  - exact (proj1 (proj2 (proj2 (export_refused_paths (fun q => q)
                                  Examples.outcomes_without_info_directory
                                  (fun _ => None) "a.pkl/m.pkl" Examples.trainer_rng
                                  Examples.learned
                                  (mkExc "FileNotFoundError"
                                     "[Errno 2] No such file or directory: 'a_info.pkl/m_info.pkl'")
                                  eq_refl))
                    eq_refl eq_refl eq_refl eq_refl eq_refl)).
Defined.

(** ** The set-up check *)

Lemma check_each_flag {A : Type} (check : A -> Setup.Output * bool) (items : list A)
  (flag : bool) :
  snd (Setup.check_each check items flag) =
  flag && forallb (fun x => snd (check x)) items.
Proof.
  revert flag. induction items as [| x rest IH]; intros flag; cbn [Setup.check_each forallb].
  - cbn [snd]. now rewrite andb_true_r.
  - specialize (IH (if snd (check x) then flag else false)).
    destruct (check x) as [out ok]. cbn [snd] in *.
    destruct (Setup.check_each check rest (if ok then flag else false)) as [out' flag'].
    cbn [snd] in *. rewrite IH. destruct ok, flag; reflexivity.
Qed.

Lemma check_each_length {A : Type} (check : A -> Setup.Output * bool) (items : list A)
  (flag : bool) :
  (forall x, List.length (fst (check x)) = 1) ->
  List.length (fst (Setup.check_each check items flag)) = List.length items.
Proof.
  intros Hone. revert flag.
  induction items as [| x rest IH]; intros flag; cbn [Setup.check_each]; [reflexivity |].
  specialize (Hone x). specialize (IH (if snd (check x) then flag else false)).
  destruct (check x) as [out ok]. cbn [fst snd] in *.
  destruct (Setup.check_each check rest (if ok then flag else false)) as [out' flag'].
  cbn [fst List.length] in *. rewrite length_app. lia.
Qed.

Lemma forallb_map_eq {A B : Type} (f : B -> bool) (g : A -> B) (h : A -> bool)
  (l : list A) :
  (forall x, h x = f (g x)) -> forallb h l = forallb f (map g l).
Proof.
  intros H. induction l as [| x l IH]; cbn [forallb map]; [reflexivity |].
  now rewrite H, IH.
Qed.

Lemma check_file_exists_snd (env : Setup.Environment) (filepath description : string) :
  snd (Setup.check_file_exists env filepath description) = Setup.path_exists env filepath.
Proof. unfold Setup.check_file_exists. now destruct (Setup.path_exists env filepath). Qed.

Lemma check_python_package_snd (env : Setup.Environment) (package_name : string) :
  snd (Setup.check_python_package env package_name) = Setup.find_spec env package_name.
Proof.
  unfold Setup.check_python_package. now destruct (Setup.find_spec env package_name).
Qed.

(** The outcome of [main] in terms of the four groups of checks. *)
Lemma main_outcome (env : Setup.Environment) :
  let passed :=
    forallb (Setup.path_exists env) (map fst Setup.critical_files) &&
    forallb (Setup.find_spec env) Setup.required_packages &&
    forallb (Setup.path_exists env) (map fst Setup.model_files) &&
    match Setup.load_test env with Ok _ => true | Raise _ => false end in
  snd (Setup.main env) = (if passed then 0%Z else 1%Z) /\
  List.length (fst (Setup.main env)) = (if passed then 34 else 31).
Proof.
  unfold Setup.main. cbv zeta.
  pose proof (check_each_flag
                (fun fd => Setup.check_file_exists env (fst fd) (snd fd))
                Setup.critical_files true) as F1.
  pose proof (check_each_length
                (fun fd => Setup.check_file_exists env (fst fd) (snd fd))
                Setup.critical_files true) as L1.
  destruct (Setup.check_each
              (fun fd => Setup.check_file_exists env (fst fd) (snd fd))
              Setup.critical_files true) as [out2 g1].
  pose proof (check_each_flag (Setup.check_python_package env)
                Setup.required_packages g1) as F2.
  pose proof (check_each_length (Setup.check_python_package env)
                Setup.required_packages g1) as L2.
  destruct (Setup.check_each (Setup.check_python_package env)
              Setup.required_packages g1) as [out4 g2].
  pose proof (check_each_flag
                (fun fd => Setup.check_file_exists env (fst fd) (snd fd))
                Setup.model_files true) as F3.
  pose proof (check_each_length
                (fun fd => Setup.check_file_exists env (fst fd) (snd fd))
                Setup.model_files true) as L3.
  destruct (Setup.check_each
              (fun fd => Setup.check_file_exists env (fst fd) (snd fd))
              Setup.model_files true) as [out6 g3].
  cbn [fst snd] in *.
  assert (One1 : forall fd : string * string,
             List.length (fst (Setup.check_file_exists env (fst fd) (snd fd))) = 1).
  { intros fd. unfold Setup.check_file_exists.
    now destruct (Setup.path_exists env (fst fd)). }
  assert (One2 : forall pk,
             List.length (fst (Setup.check_python_package env pk)) = 1).
  { intros pk. unfold Setup.check_python_package.
    now destruct (Setup.find_spec env pk). }
  specialize (L1 One1). specialize (L2 One2). specialize (L3 One1).
  cbn [List.length Setup.critical_files Setup.required_packages Setup.model_files]
    in L1, L2, L3.
  assert (E1 : g1 = forallb (Setup.path_exists env) (map fst Setup.critical_files)).
  { rewrite F1. cbn [andb]. apply forallb_map_eq.
    intros fd. apply check_file_exists_snd. }
  assert (E2 : g2 = g1 && forallb (Setup.find_spec env) Setup.required_packages).
  { rewrite F2. f_equal.
    rewrite <- (map_id Setup.required_packages) at 2. apply forallb_map_eq.
    intros pk. apply check_python_package_snd. }
  assert (E3 : g3 = forallb (Setup.path_exists env) (map fst Setup.model_files)).
  { rewrite F3. cbn [andb]. apply forallb_map_eq.
    intros fd. apply check_file_exists_snd. }
  clear F1 F2 F3 One1 One2.
  rewrite <- E1, <- E3. clear E1 E3.
  assert (Hload : forall r : Py.result unit, r = Ok tt \/ exists e, r = Raise e).
  { intros [[] | e]; [now left | right; eauto]. }
  destruct (Hload (Setup.load_test env)) as [-> | [e ->]];
    destruct g3; cbn [negb]; subst g2; destruct g1;
    destruct (forallb (Setup.find_spec env) Setup.required_packages);
    cbn [andb fst snd];
    (split; [reflexivity | rewrite !length_app; cbn [List.length]; lia]).
Qed.

(** X19.  The set-up check exits with status 0 exactly when all eight
    project files exist, all eleven packages are found, both model files
    exist and loading them succeeds.  A failed check never stops the
    later ones: the report always has one line per file and per package,
    34 lines on success and 31 on failure. *)
Theorem setup_check_exit_status (env : Setup.Environment) :
  (snd (Setup.main env) = 0%Z <->
   forallb (Setup.path_exists env) (map fst Setup.critical_files) = true /\
   forallb (Setup.find_spec env) Setup.required_packages = true /\
   forallb (Setup.path_exists env) (map fst Setup.model_files) = true /\
   Setup.load_test env = Ok tt) /\
  (snd (Setup.main env) = 0%Z \/ snd (Setup.main env) = 1%Z) /\
  List.length (fst (Setup.main env)) =
    (if Z.eqb (snd (Setup.main env)) 0 then 34 else 31).
Proof.
  destruct (main_outcome env) as [Hstatus Hprints]. cbv zeta in Hstatus, Hprints.
  rewrite Hstatus, Hprints.
  destruct (forallb (Setup.path_exists env) (map fst Setup.critical_files));
    destruct (forallb (Setup.find_spec env) Setup.required_packages);
    destruct (forallb (Setup.path_exists env) (map fst Setup.model_files));
    destruct (Setup.load_test env) as [[] | e]; cbn [andb Z.eqb];
    (split; [split; [intros H; try discriminate H; repeat split; reflexivity
                    | intros (H1 & H2 & H3 & H4); try discriminate; reflexivity]
            | split; [auto | reflexivity]]).
Qed.



(** ** The prediction log *)

Lemma predict_survival_log (st : ServerState) (now : Z) (patient : PatientInput) :
  let st' := fst (predict_survival st now patient) in
  exists entries,
    log st' = log st ++ entries /\
    List.length
      (filter (fun e => match e with LogPrediction _ _ _ _ => true | _ => false end)
              entries) + prediction_count st = prediction_count st' /\
    List.length
      (filter (fun e => match e with LogError _ => true | _ => false end) entries)
      + error_count st = error_count st'.
Proof.
  cbv zeta. unfold predict_survival, predict_body, get_feature_importance, try_except.
  destruct (model_predict_proba (model st) patient) as [p | e]; cbn [bind].
  - destruct (feature_importance_body (model st) patient) as [d | e]; cbn [bind fst snd].
    + eexists. cbn [log emit incr_prediction_count prediction_count error_count].
      split; [reflexivity |]. cbn. split; reflexivity.
    + eexists. cbn [log emit incr_prediction_count prediction_count error_count].
      split; [rewrite <- app_assoc; reflexivity |]. cbn. split; reflexivity.
  - eexists. cbn [fst log emit incr_error_count prediction_count error_count].
    split; [reflexivity |]. cbn. split; reflexivity.
Qed.

Lemma post_predict_log (st : ServerState) (req : Request) :
  let st' := fst (post_predict st req) in
  exists entries,
    log st' = log st ++ entries /\
    List.length
      (filter (fun e => match e with LogPrediction _ _ _ _ => true | _ => false end)
              entries) + prediction_count st = prediction_count st' /\
    List.length
      (filter (fun e => match e with LogError _ => true | _ => false end) entries)
      + error_count st = error_count st'.
Proof.
  cbv zeta. unfold post_predict.
  destruct (parse_patient (body_json req)) as [errs | patient].
  - exists []. cbn. rewrite app_nil_r. repeat split.
  - destruct (limiter_hit (limiter st) (remote_address req) (arrival req))
      as [storage admitted].
    destruct admitted.
    + apply (predict_survival_log (set_limiter st storage)).
    + exists []. cbn. rewrite app_nil_r. repeat split.
Qed.

(** X21.  The log is append-only over any run of [POST /predict] calls,
    and it accounts for both counters: the run appends exactly one
    prediction entry per counted prediction and exactly one error entry
    per counted error. *)
Theorem log_accounts_for_counters (reqs : list Request) (st : ServerState) :
  let st' := fst (serve st reqs) in
  exists entries,
    log st' = log st ++ entries /\
    List.length
      (filter (fun e => match e with LogPrediction _ _ _ _ => true | _ => false end)
              entries) + prediction_count st = prediction_count st' /\
    List.length
      (filter (fun e => match e with LogError _ => true | _ => false end) entries)
      + error_count st = error_count st'.
Proof.
  cbv zeta. revert st. induction reqs as [| req rest IH]; intros st; cbn [serve].
  - exists []. cbn. rewrite app_nil_r. repeat split.
  - destruct (post_predict_log st req) as (e1 & L1 & P1 & E1).
    destruct (post_predict st req) as [st1 r]. cbn [fst] in L1, P1, E1.
    destruct (IH st1) as (e2 & L2 & P2 & E2).
    destruct (serve st1 rest) as [st2 rs]. cbn [fst] in *.
    exists (e1 ++ e2). rewrite L2, L1, <- app_assoc. split; [reflexivity |].
    rewrite !filter_app, !length_app. split; lia.
Qed.
